(** * Interaction-and-temporal-state engine of the phone usage detector

    A shallow embedding of the stateful core of the repository:
    - [utils.py]: [calculate_distance], [is_phone_hand_close];
    - [hand_phone_analyzer.py]: the interaction classifier, the hold timer,
      the bounded histories, the temporal filter and the usage statistics;
    - [video_processor.py]: the usage-session scan of [get_usage_summary].

    Conventions of the embedding.
    - Python floats are idealised as real numbers ([R]): rounding, infinities
      and NaN are not modelled.  Python ints are [Z], counts and list lengths
      [nat].
    - A device is a Python dict; the two keys that later stages add
      ([is_being_held], [is_active]) are [option bool] fields, [None] meaning
      the key is absent, and [phone.get(k, False)] reads them with a default.
    - The analyzer object is a record threaded explicitly through the methods.
      The wall clock read by [time.time()] is an explicit argument.
    - Python exceptions are values of [exn] in the error monad [result]. *)

From Stdlib Require Import Reals Lra Lia ZArith List Bool Arith.
From Stdlib Require String.
Import ListNotations.

Local Open Scope R_scope.

(** ** Exceptions and the error monad *)

Inductive exn : Type :=
| ZeroDivisionError
| TypeError
| IndexError.

Inductive result (A : Type) : Type :=
| Ok (a : A)
| Raise (e : exn).

Arguments Ok {A} a.
Arguments Raise {A} e.

Definition bind {A B : Type} (m : result A) (k : A -> result B) : result B :=
  match m with
  | Ok a => k a
  | Raise e => Raise e
  end.

Notation "x <- m ;; k" := (bind m (fun x => k))
  (at level 61, m at next level, right associativity).

(** ** Python primitives *)

(** [a / b] on ints: true division, raising on a zero divisor. *)
Definition py_truediv (a b : Z) : result R :=
  if (b =? 0)%Z then Raise ZeroDivisionError else Ok (IZR a / IZR b).

(** [x == y] on floats. *)
Definition float_eq (x y : R) : bool :=
  if Req_dec_T x y then true else false.

(** Truth value of a float: [0.0] is falsy. *)
Definition float_truthy (x : R) : bool :=
  if Req_dec_T x 0 then false else true.

(** Truth value of an optional float: [None] and [0.0] are falsy. *)
Definition opt_float_truthy (o : option R) : bool :=
  match o with
  | None => false
  | Some x => float_truthy x
  end.

(** [l[-n:]] for a non-negative int [n]: the last [n] items, the whole list
    when [n] exceeds the length, and, since [-0 = 0], the whole list when
    [n = 0]. *)
Definition slice_last {A : Type} (n : nat) (l : list A) : list A :=
  match n with
  | O => l
  | S _ => skipn (length l - n) l
  end.

(** [l[-1]]: the last item, raising on an empty list. *)
Fixpoint py_last {A : Type} (l : list A) : result A :=
  match l with
  | [] => Raise IndexError
  | x :: rest =>
      match rest with
      | [] => Ok x
      | _ :: _ => py_last rest
      end
  end.

(** [sum(bs)] on a list of bools: the number of [True] items. *)
Definition sum_bools (bs : list bool) : Z :=
  fold_left (fun acc (b : bool) => (acc + (if b then 1 else 0))%Z) bs 0%Z.

(** ** config.py *)

Record Config : Type := {
  PHONE_HAND_DISTANCE_THRESHOLD : Z;
  MIN_MOTION_FRAMES : nat;
  MAX_INACTIVE_FRAMES : nat
}.

Definition default_config : Config := {|
  PHONE_HAND_DISTANCE_THRESHOLD := 200;
  MIN_MOTION_FRAMES := 3;
  MAX_INACTIVE_FRAMES := 10
|}.

(** ** Data *)

Definition Point : Type := (R * R)%type.

(** A device dict as produced by [detect_devices]. *)
Record Device : Type := {
  bbox : R * R * R * R;
  confidence : R;
  center : Point;
  class_id : Z;
  is_being_held : option bool;
  is_active : option bool
}.

(** A hand dict as produced by [detect_hands]; only [center] is read. *)
Record Hand : Type := {
  hand_center : Point
}.

(** [frame.shape[:2]]: height first, then width. *)
Definition FrameShape : Type := (Z * Z)%type.

(** [phone.get('is_being_held', False)] *)
Definition get_is_being_held (d : Device) : bool :=
  match is_being_held d with
  | Some b => b
  | None => false
  end.

(** [phone['is_being_held'] = b; phone['is_active'] = a] *)
Definition set_flags (d : Device) (b a : bool) : Device := {|
  bbox := bbox d;
  confidence := confidence d;
  center := center d;
  class_id := class_id d;
  is_being_held := Some b;
  is_active := Some a
|}.

(** [any(phone.get('is_being_held', False) for phone in phones)] *)
Definition any_held (phones : list Device) : bool :=
  existsb get_is_being_held phones.

(** ** utils.py *)

Definition calculate_distance (point1 point2 : Point) : R :=
  sqrt ((fst point1 - fst point2) ^ 2 + (snd point1 - snd point2) ^ 2).

Definition is_phone_hand_close (cfg : Config) (phone_center hand_center : Point)
    (frame_shape : FrameShape) : bool :=
  let '(h, w) := frame_shape in
  let phone_pixel := phone_center in
  let hand_pixel := (fst hand_center * IZR w, snd hand_center * IZR h) in
  let distance := calculate_distance phone_pixel hand_pixel in
  if Rle_dec distance (IZR (PHONE_HAND_DISTANCE_THRESHOLD cfg)) then true else false.

(** ** Interaction classifier *)

(** The inner [for hand in hands: ... break] loop: stops at the first hand
    that passes the proximity test. *)
Fixpoint hand_loop (cfg : Config) (phone_center : Point) (hands : list Hand)
    (frame_shape : FrameShape) : bool :=
  match hands with
  | [] => false
  | hand :: rest =>
      if is_phone_hand_close cfg phone_center (hand_center hand) frame_shape
      then true
      else hand_loop cfg phone_center rest frame_shape
  end.

Fixpoint analyze_phone_hand_interaction (cfg : Config) (phones : list Device)
    (hands : list Hand) (frame_shape : FrameShape) : list Device :=
  match phones with
  | [] => []
  | phone :: rest =>
      let phone_center := center phone in
      let held := hand_loop cfg phone_center hands frame_shape in
      set_flags phone held held
        :: analyze_phone_hand_interaction cfg rest hands frame_shape
  end.

Fixpoint analyze_tap_to_pay_hand_interaction (cfg : Config)
    (tap_to_pay_devices : list Device) (hands : list Hand)
    (frame_shape : FrameShape) : list Device :=
  match tap_to_pay_devices with
  | [] => []
  | device :: rest =>
      let device_center := center device in
      let held := hand_loop cfg device_center hands frame_shape in
      set_flags device held held
        :: analyze_tap_to_pay_hand_interaction cfg rest hands frame_shape
  end.

(** ** Analyzer state ([HandPhoneAnalyzer.__init__]) *)

Record Analyzer : Type := {
  phone_positions : list (option Point);
  active_usage_history : list bool;
  phone_hold_start_time : option R;
  phone_hold_duration : R;
  current_phone_timer : R;
  is_phone_being_held : bool
}.

Definition init_analyzer : Analyzer := {|
  phone_positions := [];
  active_usage_history := [];
  phone_hold_start_time := None;
  phone_hold_duration := 0;
  current_phone_timer := 0;
  is_phone_being_held := false
|}.

(** ** Hold timer *)

(** [current_time] is the value [time.time()] returns inside the call. *)
Definition update_phone_timer (self : Analyzer) (phones : list Device)
    (fps : R) (current_time : R) : result Analyzer :=
  let phone_currently_held := any_held phones in
  if phone_currently_held then
    if negb (is_phone_being_held self) then
      Ok {| phone_positions := phone_positions self;
            active_usage_history := active_usage_history self;
            phone_hold_start_time := Some current_time;
            phone_hold_duration := phone_hold_duration self;
            current_phone_timer := 0;
            is_phone_being_held := true |}
    else
      match phone_hold_start_time self with
      | Some start =>
          Ok {| phone_positions := phone_positions self;
                active_usage_history := active_usage_history self;
                phone_hold_start_time := phone_hold_start_time self;
                phone_hold_duration := phone_hold_duration self;
                current_phone_timer := current_time - start;
                is_phone_being_held := is_phone_being_held self |}
      | None => Raise TypeError
      end
  else
    if is_phone_being_held self then
      Ok {| phone_positions := phone_positions self;
            active_usage_history := active_usage_history self;
            phone_hold_start_time := None;
            phone_hold_duration := phone_hold_duration self + current_phone_timer self;
            current_phone_timer := 0;
            is_phone_being_held := false |}
    else Ok self.

Definition get_phone_hold_duration (self : Analyzer) : R :=
  if is_phone_being_held self && opt_float_truthy (phone_hold_start_time self)
  then current_phone_timer self
  else 0.

Definition get_total_phone_hold_duration (self : Analyzer) : R :=
  let total := phone_hold_duration self in
  if is_phone_being_held self && opt_float_truthy (phone_hold_start_time self)
  then total + current_phone_timer self
  else total.

(** ** Bounded histories *)

Definition max_history (cfg : Config) : nat :=
  Nat.max (MIN_MOTION_FRAMES cfg) (MAX_INACTIVE_FRAMES cfg) * 2.

(** [if len(xs) > max_history: xs = xs[-max_history:]] *)
Definition trim_history {A : Type} (cfg : Config) (xs : list A) : list A :=
  if max_history cfg <? length xs then slice_last (max_history cfg) xs else xs.

(** The entry appended to [phone_positions]: the first phone's center, or
    [None] when no phone was detected. *)
Definition primary_position (phones : list Device) : option Point :=
  match phones with
  | phone :: _ => Some (center phone)
  | [] => None
  end.

Definition update_tracking (cfg : Config) (self : Analyzer)
    (phones : list Device) (frame_idx : Z) : Analyzer :=
  let position := primary_position phones in
  let is_active := any_held phones in
  {| phone_positions := trim_history cfg (phone_positions self ++ [position]);
     active_usage_history := trim_history cfg (active_usage_history self ++ [is_active]);
     phone_hold_start_time := phone_hold_start_time self;
     phone_hold_duration := phone_hold_duration self;
     current_phone_timer := current_phone_timer self;
     is_phone_being_held := is_phone_being_held self |}.

(** ** Temporal filter *)

(** The console write inside the loop is a diagnostic and is not modelled. *)
Definition apply_temporal_filtering (cfg : Config) (self : Analyzer)
    (phones : list Device) : result (list Device) :=
  match active_usage_history self with
  | [] => Ok phones
  | _ :: _ =>
      if MAX_INACTIVE_FRAMES cfg * 3 <=? length (active_usage_history self) then
        let recent_active :=
          slice_last (MAX_INACTIVE_FRAMES cfg * 2) (active_usage_history self) in
        recent_activity_rate <-
          py_truediv (sum_bools recent_active) (Z.of_nat (length recent_active)) ;;
        if float_eq recent_activity_rate 0 && negb (any_held phones)
        then Ok (map (fun phone => set_flags phone false false) phones)
        else Ok phones
      else Ok phones
  end.

(** ** Frame orchestrator

    The detector outputs ([phones], [tap_to_pay_devices], [hands]) and the
    frame's shape are inputs: detection itself is external. *)
Definition process_frame (cfg : Config) (self : Analyzer)
    (phones tap_to_pay_devices : list Device) (hands : list Hand)
    (frame_shape : FrameShape) (frame_idx : Z) (fps : R) (current_time : R)
    : result (Analyzer * (list Device * list Device * list Hand)) :=
  let phones := analyze_phone_hand_interaction cfg phones hands frame_shape in
  let tap_to_pay_devices :=
    analyze_tap_to_pay_hand_interaction cfg tap_to_pay_devices hands frame_shape in
  self <- update_phone_timer self phones fps current_time ;;
  let self := update_tracking cfg self phones frame_idx in
  phones <- apply_temporal_filtering cfg self phones ;;
  Ok (self, (phones, tap_to_pay_devices, hands)).

(** ** Usage statistics *)

Record Statistics : Type := {
  total_frames : Z;
  active_frames : Z;
  usage_percentage : R;
  total_phone_hold_time : R;
  current_phone_hold_time : R
}.

Definition get_usage_statistics (self : Analyzer) : result Statistics :=
  match active_usage_history self with
  | [] =>
      Ok {| total_frames := 0;
            active_frames := 0;
            usage_percentage := 0;
            total_phone_hold_time := 0;
            current_phone_hold_time := 0 |}
  | _ :: _ =>
      let total_frames := Z.of_nat (length (active_usage_history self)) in
      let active_frames := sum_bools (active_usage_history self) in
      ratio <- py_truediv active_frames total_frames ;;
      let usage_percentage := ratio * 100 in
      Ok {| total_frames := total_frames;
            active_frames := active_frames;
            usage_percentage := usage_percentage;
            total_phone_hold_time := get_total_phone_hold_duration self;
            current_phone_hold_time := get_phone_hold_duration self |}
  end.

(** ** Session extractor ([video_processor.py]) *)

(** The per-frame record [frame_data]; the per-device detail lists are not
    read by the summary and are left out. *)
Record FrameData : Type := {
  frame_idx : Z;
  timestamp : R;
  phones_detected : nat;
  tap_to_pay_detected : nat;
  hands_detected : nat;
  active_phone_usage : bool;
  tap_to_pay_usage : bool
}.

(** [current_session] while it is open: only the two start keys are set. *)
Record OpenSession : Type := {
  open_start_time : R;
  open_start_frame : Z
}.

Record Session : Type := {
  start_time : R;
  start_frame : Z;
  end_time : R;
  end_frame : Z;
  duration : R
}.

(** The three assignments that complete [current_session] from [frame]. *)
Definition close_session (current_session : OpenSession) (frame : FrameData)
    : Session :=
  {| start_time := open_start_time current_session;
     start_frame := open_start_frame current_session;
     end_time := timestamp frame;
     end_frame := frame_idx frame;
     duration := timestamp frame - open_start_time current_session |}.

(** One iteration of [for frame in self.usage_data]. *)
Definition session_step (state : list Session * option OpenSession)
    (frame : FrameData) : list Session * option OpenSession :=
  let '(usage_sessions, current_session) := state in
  if active_phone_usage frame then
    match current_session with
    | None =>
        (usage_sessions,
         Some {| open_start_time := timestamp frame;
                 open_start_frame := frame_idx frame |})
    | Some _ => (usage_sessions, current_session)
    end
  else
    match current_session with
    | Some cur => (usage_sessions ++ [close_session cur frame], None)
    | None => (usage_sessions, current_session)
    end.

Record VideoProcessor : Type := {
  analyzer : Analyzer;
  usage_data : list FrameData
}.

Record Summary : Type := {
  summary_total_frames : Z;
  summary_active_frames : Z;
  summary_usage_percentage : R;
  usage_sessions : list Session;
  total_usage_time : R;
  summary_total_phone_hold_time : R
}.

(** [sum(session['duration'] for session in usage_sessions)] *)
Definition sum_durations (sessions : list Session) : R :=
  fold_left (fun acc s => acc + duration s) sessions 0.

(** The session scan of [get_usage_summary]: the loop over the frames, then
    the closing of a session still open after the last frame. *)
Definition find_usage_sessions (usage_data : list FrameData)
    : result (list Session) :=
  let '(usage_sessions, current_session) :=
    fold_left session_step usage_data ([], None) in
  match current_session with
  | Some cur =>
      last_frame <- py_last usage_data ;;
      Ok (usage_sessions ++ [close_session cur last_frame])
  | None => Ok usage_sessions
  end.

Definition get_usage_summary (self : VideoProcessor) : result (option Summary) :=
  match usage_data self with
  | [] => Ok None
  | _ :: _ =>
      let total_frames := Z.of_nat (length (usage_data self)) in
      let active_phone_frames :=
        Z.of_nat (length (filter active_phone_usage (usage_data self))) in
      ratio <- py_truediv active_phone_frames total_frames ;;
      let usage_percentage := ratio * 100 in
      usage_sessions <- find_usage_sessions (usage_data self) ;;
      Ok (Some {| summary_total_frames := total_frames;
                  summary_active_frames := active_phone_frames;
                  summary_usage_percentage := usage_percentage;
                  usage_sessions := usage_sessions;
                  total_usage_time := sum_durations usage_sessions;
                  summary_total_phone_hold_time :=
                    get_total_phone_hold_duration (analyzer self) |})
  end.

(** ** Further constants of config.py *)

Definition MOTION_THRESHOLD : Z := 5.
Definition CLASS_TAP_TO_PAY : Z := 0.
Definition CLASS_PHONE : Z := 1.

(** ** Further Python primitives *)

(** [a / b] with a float dividend and an int divisor. *)
Definition py_truediv_float (a : R) (b : Z) : result R :=
  if (b =? 0)%Z then Raise ZeroDivisionError else Ok (a / IZR b).

(** [a / b] with an int dividend and a float divisor. *)
Definition py_truediv_by_float (a : Z) (b : R) : result R :=
  if float_eq b 0 then Raise ZeroDivisionError else Ok (IZR a / b).

(** ** utils.py: box center and motion *)

Definition get_phone_center (box : R * R * R * R) : Point :=
  let '(x1, y1, x2, y2) := box in
  ((x1 + x2) / 2, (y1 + y2) / 2).

(** Truth value of a position entry: a center tuple is truthy, [None] is
    not. *)
Definition position_truthy (p : option Point) : bool :=
  match p with
  | Some _ => true
  | None => false
  end.

(** The loop [for i in range(1, len(recent_positions))] of [detect_motion]:
    [previous] is [recent_positions[i-1]] and the head of [rest] is
    [recent_positions[i]]. *)
Fixpoint movement_loop (previous : option Point) (rest : list (option Point))
    (total_movement : R) : R :=
  match rest with
  | [] => total_movement
  | current :: rest' =>
      let total_movement :=
        match current, previous with
        | Some c, Some p => total_movement + calculate_distance c p
        | _, _ => total_movement
        end in
      movement_loop current rest' total_movement
  end.

Definition detect_motion (cfg : Config) (phone_positions : list (option Point))
    (frame_idx : Z) : result bool :=
  if length phone_positions <? MIN_MOTION_FRAMES cfg then Ok false
  else
    let recent_positions := slice_last (MIN_MOTION_FRAMES cfg) phone_positions in
    let total_movement :=
      match recent_positions with
      | [] => 0
      | first :: rest => movement_loop first rest 0
      end in
    avg_movement <-
      py_truediv_float total_movement (Z.of_nat (length recent_positions) - 1) ;;
    Ok (if Rlt_dec (IZR MOTION_THRESHOLD) avg_movement then true else false).

(** ** Device detection ([detect_devices])

    The detector call is external; its results are the input: one entry per
    result, whose [boxes] may be [None]. *)

Record Box : Type := {
  box_cls : Z;
  box_conf : R;
  box_xyxy : R * R * R * R
}.

Definition device_info (box : Box) : Device := {|
  bbox := box_xyxy box;
  confidence := box_conf box;
  center := get_phone_center (box_xyxy box);
  class_id := box_cls box;
  is_being_held := None;
  is_active := None
|}.

(** One iteration of [for box in boxes]. *)
Definition detect_step (lists : list Device * list Device) (box : Box)
    : list Device * list Device :=
  let '(phones, tap_to_pay_devices) := lists in
  let info := device_info box in
  if (box_cls box =? CLASS_PHONE)%Z then (phones ++ [info], tap_to_pay_devices)
  else if (box_cls box =? CLASS_TAP_TO_PAY)%Z
       then (phones, tap_to_pay_devices ++ [info])
       else (phones, tap_to_pay_devices).

Definition detect_devices (results : list (option (list Box)))
    : list Device * list Device :=
  fold_left
    (fun lists boxes =>
       match boxes with
       | Some boxes => fold_left detect_step boxes lists
       | None => lists
       end)
    results ([], []).

(** ** The frame loop of [process_video]

    Decoding, drawing and writing frames are external.  Each frame comes with
    what the detectors returned on it, its shape, the clock value read by the
    hold timer while it is processed, and the clock value the progress update
    reads after it (used only when the frame count reaches a multiple of
    100). *)

Record FrameInput : Type := {
  in_results : list (option (list Box));
  in_hands : list Hand;
  in_shape : FrameShape;
  in_clock : R;
  in_progress_clock : R
}.

(** The progress update after [frame_idx += 1]; the message it prints is not
    modelled, the division it makes is. *)
Definition progress_update (frame_idx : Z) (start_time now : R) : result unit :=
  if (frame_idx mod 100 =? 0)%Z then
    let elapsed_time := now - start_time in
    fps_processing <- py_truediv_by_float frame_idx elapsed_time ;;
    Ok tt
  else Ok tt.

(** The dict [frame_data] of one frame, less the detail lists. *)
Definition frame_record (frame_idx : Z) (fps : R)
    (phones tap_to_pay_devices : list Device) (hands : list Hand)
    : result FrameData :=
  timestamp <- py_truediv_by_float frame_idx fps ;;
  Ok {| frame_idx := frame_idx;
        timestamp := timestamp;
        phones_detected := length phones;
        tap_to_pay_detected := length tap_to_pay_devices;
        hands_detected := length hands;
        active_phone_usage := any_held phones;
        tap_to_pay_usage := any_held tap_to_pay_devices |}.

(** The body of [while True] for the frames that are read, starting at
    [frame_idx] with the records collected so far; [start_time] is the clock
    value read before the loop. *)
Fixpoint process_frames (cfg : Config) (fps start_time : R)
    (self : VideoProcessor) (frame_idx : Z) (frames : list FrameInput)
    : result VideoProcessor :=
  match frames with
  | [] => Ok self
  | frame :: rest =>
      let '(phones, tap_to_pay_devices) := detect_devices (in_results frame) in
      out <- process_frame cfg (analyzer self) phones tap_to_pay_devices
               (in_hands frame) (in_shape frame) frame_idx fps (in_clock frame) ;;
      let '(analyzer', (phones, tap_to_pay_devices, hands)) := out in
      frame_data <- frame_record frame_idx fps phones tap_to_pay_devices hands ;;
      _ <- progress_update (frame_idx + 1) start_time (in_progress_clock frame) ;;
      process_frames cfg fps start_time
        {| analyzer := analyzer';
           usage_data := usage_data self ++ [frame_data] |}
        (frame_idx + 1) rest
  end.

(** ** The report of [save_report]

    Writing the file is external; the model returns the report dict that is
    serialized, with the value of [datetime.now().isoformat()] as an
    argument.  [convert_numpy_types] is the identity on the modelled
    values. *)

Record Report : Type := {
  report_video_path : String.string;
  report_output_path : String.string;
  report_processing_time : String.string;
  report_total_frames : Z;
  report_active_phone_usage_frames : Z;
  report_tap_to_pay_usage_frames : Z;
  report_phone_usage_percentage : R;
  report_frame_details : list FrameData
}.

Definition save_report (usage_data : list FrameData)
    (video_path output_path now_isoformat : String.string) : result Report :=
  let serializable_usage_data := usage_data in
  let total := Z.of_nat (length usage_data) in
  let active := Z.of_nat (length (filter active_phone_usage usage_data)) in
  let tap := Z.of_nat (length (filter tap_to_pay_usage usage_data)) in
  ratio <- py_truediv active total ;;
  Ok {| report_video_path := video_path;
        report_output_path := output_path;
        report_processing_time := now_isoformat;
        report_total_frames := total;
        report_active_phone_usage_frames := active;
        report_tap_to_pay_usage_frames := tap;
        report_phone_usage_percentage := ratio * 100;
        report_frame_details := serializable_usage_data |}.

(** ** Drivers: sequences of calls *)

(** Successive [update_phone_timer] calls, each with its phone list and the
    clock value read inside the call. *)
Fixpoint run_timer (self : Analyzer) (calls : list (list Device * R))
    : result Analyzer :=
  match calls with
  | [] => Ok self
  | (phones, current_time) :: rest =>
      self' <- update_phone_timer self phones 30 current_time ;;
      run_timer self' rest
  end.

(** The same run, reading [get_phone_hold_duration] after every call. *)
Fixpoint run_timer_trace (self : Analyzer) (calls : list (list Device * R))
    : result (list R) :=
  match calls with
  | [] => Ok []
  | (phones, current_time) :: rest =>
      self' <- update_phone_timer self phones 30 current_time ;;
      readings <- run_timer_trace self' rest ;;
      Ok (get_phone_hold_duration self' :: readings)
  end.

(** Successive [update_tracking] calls, numbered from [frame_idx]. *)
Fixpoint run_tracking (cfg : Config) (self : Analyzer)
    (frames : list (list Device)) (frame_idx : Z) : Analyzer :=
  match frames with
  | [] => self
  | phones :: rest =>
      run_tracking cfg (update_tracking cfg self phones frame_idx) rest (frame_idx + 1)
  end.

(** The frame records of a video whose frames [first_idx], [first_idx + 1], ...
    have the given activity flags, with [timestamp = frame_idx / fps] as
    [process_video] computes it. *)
Fixpoint frames_of_activity (fps : R) (first_idx : Z) (flags : list bool)
    : list FrameData :=
  match flags with
  | [] => []
  | active :: rest =>
      {| frame_idx := first_idx;
         timestamp := IZR first_idx / fps;
         phones_detected := 0;
         tap_to_pay_detected := 0;
         hands_detected := 0;
         active_phone_usage := active;
         tap_to_pay_usage := false |}
        :: frames_of_activity fps (first_idx + 1) rest
  end.

(** ** Specification-side notions *)

(** Euclidean distance, in pixel space, between a device center and a hand
    center given in normalized coordinates. *)
Definition spec_pixel_distance (device_center hand_center_normalized : Point)
    (frame_width frame_height : Z) : R :=
  let px := fst hand_center_normalized * IZR frame_width in
  let py := snd hand_center_normalized * IZR frame_height in
  sqrt ((fst device_center - px) * (fst device_center - px)
        + (snd device_center - py) * (snd device_center - py)).

(** Minimum of a non-empty family of distances. *)
Definition spec_min_distance (d0 : R) (ds : list R) : R :=
  fold_right Rmin d0 ds.

(** The [n] most recent items of [l], oldest first. *)
Definition most_recent {A : Type} (n : nat) (l : list A) : list A :=
  skipn (length l - n) l.

(** Timestamps that never go backward. *)
Fixpoint nondecreasing (ts : list R) : Prop :=
  match ts with
  | [] => True
  | t :: rest =>
      match rest with
      | [] => True
      | t' :: _ => t <= t' /\ nondecreasing rest
      end
  end.

(** The boxes of all results, in detection order. *)
Definition all_boxes (results : list (option (list Box))) : list Box :=
  flat_map (fun boxes => match boxes with Some bs => bs | None => [] end) results.

(** The number of false-to-true changes in a sequence of activity flags that
    follows a frame with flag [previous]. *)
Fixpoint rising_edges (previous : bool) (flags : list bool) : nat :=
  match flags with
  | [] => 0
  | flag :: rest =>
      (if negb previous && flag then 1 else 0) + rising_edges flag rest
  end.

(** No step between two consecutive detected positions is longer than
    [bound]; steps from or to a missing position are not measured. *)
Fixpoint steps_within (bound : R) (previous : option Point)
    (rest : list (option Point)) : Prop :=
  match rest with
  | [] => True
  | current :: rest' =>
      match current, previous with
      | Some c, Some p => calculate_distance c p <= bound
      | _, _ => True
      end
      /\ steps_within bound current rest'
  end.

(** Sessions in time order: each starts no earlier than [bound] and than the
    end of the one before, ends no earlier than it starts, and has the
    difference as its duration. *)
Fixpoint chronological (bound : R) (sessions : list Session) : Prop :=
  match sessions with
  | [] => True
  | s :: rest =>
      bound <= start_time s
      /\ start_time s <= end_time s
      /\ duration s = end_time s - start_time s
      /\ chronological (end_time s) rest
  end.

(** The proximity test of the classifier applied to a detector box. *)
Definition box_near_hand (cfg : Config) (hands : list Hand) (shape : FrameShape)
    (box : Box) : bool :=
  hand_loop cfg (get_phone_center (box_xyxy box)) hands shape.

(** The record of one frame read directly off the detector results: counts
    per class, and activity when some box of the class has a hand near its
    center. *)
Definition direct_record (cfg : Config) (fps : R) (idx : Z) (frame : FrameInput)
    : FrameData :=
  let boxes := all_boxes (in_results frame) in
  let phone_boxes := filter (fun b => (box_cls b =? 1)%Z) boxes in
  let tap_boxes := filter (fun b => (box_cls b =? 0)%Z) boxes in
  {| frame_idx := idx;
     timestamp := IZR idx / fps;
     phones_detected := length phone_boxes;
     tap_to_pay_detected := length tap_boxes;
     hands_detected := length (in_hands frame);
     active_phone_usage :=
       existsb (box_near_hand cfg (in_hands frame) (in_shape frame)) phone_boxes;
     tap_to_pay_usage :=
       existsb (box_near_hand cfg (in_hands frame) (in_shape frame)) tap_boxes |}.

Fixpoint direct_records (cfg : Config) (fps : R) (idx : Z)
    (frames : list FrameInput) : list FrameData :=
  match frames with
  | [] => []
  | frame :: rest =>
      direct_record cfg fps idx frame :: direct_records cfg fps (idx + 1) rest
  end.

(** ** Sample data *)

Definition sample_phone : Device := {|
  bbox := (50, 60, 150, 140);
  confidence := 1;
  center := (100, 100);
  class_id := 1;
  is_being_held := None;
  is_active := None
|}.

(** A classified phone, held or not. *)
Definition classified_phone (held : bool) : Device :=
  set_flags sample_phone held held.

Definition sample_hand : Hand := {| hand_center := (1 / 2, 1 / 2) |}.

(** A hold that began when the clock read [0.0], seen two seconds later,
    with five seconds accumulated by earlier holds. *)
Definition held_since_zero : Analyzer := {|
  phone_positions := [];
  active_usage_history := [];
  phone_hold_start_time := Some 0;
  phone_hold_duration := 5;
  current_phone_timer := 2;
  is_phone_being_held := true
|}.

(** An analyzer that has seen [n] frames, none of them active. *)
Definition idle_for (n : nat) : Analyzer := {|
  phone_positions := repeat None n;
  active_usage_history := repeat false n;
  phone_hold_start_time := None;
  phone_hold_duration := 0;
  current_phone_timer := 0;
  is_phone_being_held := false
|}.

(** A frame on which the detector found one phone with a hand on it, the
    clock reading [clock] both in the timer and in the progress update. *)
Definition sample_frame (clock : R) : FrameInput := {|
  in_results := [Some [ {| box_cls := 1;
                           box_conf := 1;
                           box_xyxy := (50, 60, 150, 140) |} ]];
  in_hands := [sample_hand];
  in_shape := (200, 200)%Z;
  in_clock := clock;
  in_progress_clock := clock
|}.

(** ** Invariants and predicates *)

(** While a hold is in progress its start is recorded, is not later than the
    clock value [now] of the latest call, and the segment timer is not
    negative. *)
Definition timer_ok (now : R) (self : Analyzer) : Prop :=
  is_phone_being_held self = true ->
  exists start,
    phone_hold_start_time self = Some start
    /\ start <= now
    /\ 0 <= current_phone_timer self.

(** While a hold is in progress its start is recorded. *)
Definition timer_started (self : Analyzer) : Prop :=
  is_phone_being_held self = true ->
  exists start, phone_hold_start_time self = Some start.

(** While a hold is in progress its start is recorded, is not [0.0] and not
    later than [now], and the segment timer is between zero and the time
    elapsed since the start. *)
Definition timer_tight (now : R) (self : Analyzer) : Prop :=
  is_phone_being_held self = true ->
  exists start,
    phone_hold_start_time self = Some start
    /\ start <> 0
    /\ start <= now
    /\ 0 <= current_phone_timer self <= now - start.

(** A device as the classifier leaves it: both flags present and equal. *)
Definition classified (d : Device) : bool :=
  match is_being_held d, is_active d with
  | Some held, Some active => Bool.eqb held active
  | _, _ => false
  end.

(** * Properties *)

(** ** Interaction classifier *)

Section Classifier.

Variable cfg : Config.

Lemma is_phone_hand_close_spec (c : Point) (hand : Hand) (fh fw : Z) :
  is_phone_hand_close cfg c (hand_center hand) (fh, fw) = true
  <-> spec_pixel_distance c (hand_center hand) fw fh
      <= IZR (PHONE_HAND_DISTANCE_THRESHOLD cfg).
Proof.
  unfold is_phone_hand_close, calculate_distance, spec_pixel_distance.
  cbn [fst snd].
  replace ((fst c - fst (hand_center hand) * IZR fw) ^ 2
           + (snd c - snd (hand_center hand) * IZR fh) ^ 2)
    with ((fst c - fst (hand_center hand) * IZR fw)
            * (fst c - fst (hand_center hand) * IZR fw)
          + (snd c - snd (hand_center hand) * IZR fh)
            * (snd c - snd (hand_center hand) * IZR fh)) by ring.
  destruct (Rle_dec _ _) as [Hle | Hgt]; split; intro H;
    try assumption; try reflexivity; try discriminate.
  contradiction.
Qed.

Lemma hand_loop_true_iff (c : Point) (hands : list Hand) (fh fw : Z) :
  hand_loop cfg c hands (fh, fw) = true
  <-> exists hand, In hand hands
        /\ spec_pixel_distance c (hand_center hand) fw fh
           <= IZR (PHONE_HAND_DISTANCE_THRESHOLD cfg).
Proof.
  induction hands as [| hand rest IH].
  - simpl. split; [discriminate | intros (h & [] & _)].
  - cbn [hand_loop].
    destruct (is_phone_hand_close cfg c (hand_center hand) (fh, fw)) eqn:Hclose.
    + split; [intros _ | reflexivity].
      exists hand. split; [now left | now apply is_phone_hand_close_spec].
    + rewrite IH. split.
      * intros (h & Hin & Hd). exists h. split; [now right | exact Hd].
      * intros (h & [Heq | Hin] & Hd).
        -- subst h. apply is_phone_hand_close_spec in Hd. congruence.
        -- exists h. now split.
Qed.

Lemma Rmin_le_iff (a b c : R) : Rmin a b <= c <-> a <= c \/ b <= c.
Proof.
  unfold Rmin. destruct (Rle_dec a b); lra.
Qed.

Lemma spec_min_distance_le_iff (d0 : R) (ds : list R) (thr : R) :
  spec_min_distance d0 ds <= thr <-> exists d, In d (d0 :: ds) /\ d <= thr.
Proof.
  unfold spec_min_distance. induction ds as [| d ds IH]; cbn [fold_right].
  - split.
    + intro H. exists d0. split; [now left | exact H].
    + intros (d & [Heq | []] & Hd). now subst.
  - rewrite Rmin_le_iff, IH. split.
    + intros [H | (x & [Hx | Hx] & Hle)].
      * exists d. split; [right; now left | exact H].
      * exists x. split; [now left | exact Hle].
      * exists x. split; [right; now right | exact Hle].
    + intros (x & [Hx | [Hx | Hx]] & Hle).
      * right. exists x. split; [now left | exact Hle].
      * left. now subst.
      * right. exists x. split; [now right | exact Hle].
Qed.

Lemma analyze_phone_nth (phones : list Device) (hands : list Hand)
    (shape : FrameShape) (i : nat) (phone : Device) :
  nth_error phones i = Some phone ->
  nth_error (analyze_phone_hand_interaction cfg phones hands shape) i
  = Some (set_flags phone (hand_loop cfg (center phone) hands shape)
                          (hand_loop cfg (center phone) hands shape)).
Proof.
  revert i. induction phones as [| p rest IH]; intros [| i] H; try discriminate.
  - simpl in H. injection H as ->. reflexivity.
  - simpl in H. cbn [analyze_phone_hand_interaction nth_error]. now apply IH.
Qed.

(** The tap-to-pay classifier is the phone classifier. *)
Lemma analyze_tap_to_pay_is_analyze_phone (devices : list Device)
    (hands : list Hand) (shape : FrameShape) :
  analyze_tap_to_pay_hand_interaction cfg devices hands shape
  = analyze_phone_hand_interaction cfg devices hands shape.
Proof.
  induction devices as [| d rest IH]; simpl; [reflexivity | now rewrite IH].
Qed.

(** C1. For the device at any position of the classifier's input, the device
    at the same position of its output has [is_being_held] set to a value that
    is true exactly when some hand, with its normalized center scaled by
    (frame width, frame height), is within Euclidean distance
    [PHONE_HAND_DISTANCE_THRESHOLD] of the device's center; with at least one
    hand this is the minimum distance over the hands being within the
    threshold, and with no hand the value is false.  [is_active] is set to
    the same value, and the detection fields are those of the input
    device. *)
Theorem classifier_held_iff_hand_within_threshold
    (phones : list Device) (hands : list Hand) (fh fw : Z)
    (i : nat) (phone : Device) :
  nth_error phones i = Some phone ->
  exists (held : bool) (classified_device : Device),
    nth_error (analyze_phone_hand_interaction cfg phones hands (fh, fw)) i
      = Some classified_device
    /\ is_being_held classified_device = Some held
    /\ is_active classified_device = Some held
    /\ get_is_being_held classified_device = held
    /\ bbox classified_device = bbox phone
    /\ confidence classified_device = confidence phone
    /\ center classified_device = center phone
    /\ class_id classified_device = class_id phone
    /\ classified_device = set_flags phone held held
    /\ (held = true
        <-> exists hand, In hand hands
              /\ spec_pixel_distance (center phone) (hand_center hand) fw fh
                 <= IZR (PHONE_HAND_DISTANCE_THRESHOLD cfg))
    /\ (forall hand0 rest, hands = hand0 :: rest ->
          (held = true
           <-> spec_min_distance
                 (spec_pixel_distance (center phone) (hand_center hand0) fw fh)
                 (map (fun hand =>
                         spec_pixel_distance (center phone) (hand_center hand) fw fh)
                      rest)
               <= IZR (PHONE_HAND_DISTANCE_THRESHOLD cfg)))
    /\ (hands = [] -> held = false).
Proof.
  intro Hnth.
  exists (hand_loop cfg (center phone) hands (fh, fw)).
  exists (set_flags phone (hand_loop cfg (center phone) hands (fh, fw))
                          (hand_loop cfg (center phone) hands (fh, fw))).
  split; [now apply analyze_phone_nth |].
  do 8 (split; [reflexivity |]).
  split; [apply hand_loop_true_iff |].
  split.
  - intros hand0 rest ->.
    rewrite hand_loop_true_iff, spec_min_distance_le_iff. split.
    + intros (h & [Heq | Hin] & Hd).
      * subst h. eexists. split; [left; reflexivity | exact Hd].
      * eexists. split; [right; apply in_map_iff; exists h; split;
                         [reflexivity | exact Hin] | exact Hd].
    + intros (d & [Heq | Hin] & Hd).
      * subst d. exists hand0. split; [now left | exact Hd].
      * apply in_map_iff in Hin as (h & <- & Hin).
        exists h. split; [now right | exact Hd].
  - intros ->. reflexivity.
Qed.

End Classifier.

(** A phone at the center of a 200 by 200 frame and one hand. *)
Lemma classifier_held_iff_hand_within_threshold_witness :
  exists (held : bool) (classified_device : Device),
    nth_error (analyze_phone_hand_interaction default_config [sample_phone]
                 [sample_hand] (200, 200)%Z) 0
      = Some classified_device
    /\ is_being_held classified_device = Some held
    /\ is_active classified_device = Some held
    /\ get_is_being_held classified_device = held
    /\ bbox classified_device = bbox sample_phone
    /\ confidence classified_device = confidence sample_phone
    /\ center classified_device = center sample_phone
    /\ class_id classified_device = class_id sample_phone
    /\ classified_device = set_flags sample_phone held held
    /\ (held = true
        <-> exists hand, In hand [sample_hand]
              /\ spec_pixel_distance (center sample_phone) (hand_center hand) 200 200
                 <= IZR (PHONE_HAND_DISTANCE_THRESHOLD default_config))
    /\ (forall hand0 rest, [sample_hand] = hand0 :: rest ->
          (held = true
           <-> spec_min_distance
                 (spec_pixel_distance (center sample_phone) (hand_center hand0) 200 200)
                 (map (fun hand =>
                         spec_pixel_distance (center sample_phone) (hand_center hand)
                           200 200)
                      rest)
               <= IZR (PHONE_HAND_DISTANCE_THRESHOLD default_config)))
    /\ ([sample_hand] = [] -> held = false).
Proof.
  apply (classifier_held_iff_hand_within_threshold default_config
           [sample_phone] [sample_hand] 200 200 0 sample_phone).
  reflexivity.
Defined.

(** ** Hold timer *)

Lemma float_truthy_true (x : R) : x <> 0 -> float_truthy x = true.
Proof.
  intro H. unfold float_truthy. destruct (Req_dec_T x 0); [contradiction | reflexivity].
Qed.

Lemma float_truthy_zero : float_truthy 0 = false.
Proof.
  unfold float_truthy. destruct (Req_dec_T 0 0); [reflexivity | contradiction].
Qed.

(** The four transitions of [update_phone_timer]. *)

Lemma timer_begin (self : Analyzer) (phones : list Device) (fps t : R) :
  any_held phones = true -> is_phone_being_held self = false ->
  update_phone_timer self phones fps t
  = Ok {| phone_positions := phone_positions self;
          active_usage_history := active_usage_history self;
          phone_hold_start_time := Some t;
          phone_hold_duration := phone_hold_duration self;
          current_phone_timer := 0;
          is_phone_being_held := true |}.
Proof.
  intros Hp Hs. unfold update_phone_timer. now rewrite Hp, Hs.
Qed.

Lemma timer_continue (self : Analyzer) (phones : list Device) (fps t start : R) :
  any_held phones = true -> is_phone_being_held self = true ->
  phone_hold_start_time self = Some start ->
  update_phone_timer self phones fps t
  = Ok {| phone_positions := phone_positions self;
          active_usage_history := active_usage_history self;
          phone_hold_start_time := Some start;
          phone_hold_duration := phone_hold_duration self;
          current_phone_timer := t - start;
          is_phone_being_held := true |}.
Proof.
  intros Hp Hs Hstart. unfold update_phone_timer. now rewrite Hp, Hs, Hstart.
Qed.

Lemma timer_release (self : Analyzer) (phones : list Device) (fps t : R) :
  any_held phones = false -> is_phone_being_held self = true ->
  update_phone_timer self phones fps t
  = Ok {| phone_positions := phone_positions self;
          active_usage_history := active_usage_history self;
          phone_hold_start_time := None;
          phone_hold_duration := phone_hold_duration self + current_phone_timer self;
          current_phone_timer := 0;
          is_phone_being_held := false |}.
Proof.
  intros Hp Hs. unfold update_phone_timer. now rewrite Hp, Hs.
Qed.

Lemma timer_idle (self : Analyzer) (phones : list Device) (fps t : R) :
  any_held phones = false -> is_phone_being_held self = false ->
  update_phone_timer self phones fps t = Ok self.
Proof.
  intros Hp Hs. unfold update_phone_timer. now rewrite Hp, Hs.
Qed.

(** Rewrites the next [update_phone_timer] call of a run whose inputs are
    known, by the transition that applies. *)
Ltac timer_step :=
  first [ rewrite timer_idle by (assumption || reflexivity)
        | rewrite timer_begin by (assumption || reflexivity)
        | rewrite timer_release by (assumption || reflexivity)
        | erewrite timer_continue by (assumption || reflexivity) ];
  cbn [bind].

(** The synthetic run of the hold timer: inputs F,T,T,T,F at times 0..4, then
    a second hold from time 5 to time 6. *)

Lemma scenario_first_run (p0 p1 p2 p3 p4 : list Device) :
  any_held p0 = false -> any_held p1 = true -> any_held p2 = true ->
  any_held p3 = true -> any_held p4 = false ->
  run_timer init_analyzer [(p0, 0); (p1, 1); (p2, 2); (p3, 3); (p4, 4)]
  = Ok {| phone_positions := [];
          active_usage_history := [];
          phone_hold_start_time := None;
          phone_hold_duration := 0 + (3 - 1);
          current_phone_timer := 0;
          is_phone_being_held := false |}.
Proof.
  intros H0 H1 H2 H3 H4. cbn [run_timer].
  do 5 timer_step.
  reflexivity.
Qed.

Lemma scenario_first_trace (p0 p1 p2 p3 p4 : list Device) :
  any_held p0 = false -> any_held p1 = true -> any_held p2 = true ->
  any_held p3 = true -> any_held p4 = false ->
  run_timer_trace init_analyzer [(p0, 0); (p1, 1); (p2, 2); (p3, 3); (p4, 4)]
  = Ok [0; 0; 2 - 1; 3 - 1; 0].
Proof.
  intros H0 H1 H2 H3 H4. cbn [run_timer_trace].
  do 5 timer_step.
  unfold get_phone_hold_duration.
  cbn [is_phone_being_held phone_hold_start_time current_phone_timer
       init_analyzer andb opt_float_truthy].
  rewrite (float_truthy_true 1) by lra.
  reflexivity.
Qed.

Lemma scenario_second_run (p0 p1 p2 p3 p4 p5 p6 : list Device) :
  any_held p0 = false -> any_held p1 = true -> any_held p2 = true ->
  any_held p3 = true -> any_held p4 = false ->
  any_held p5 = true -> any_held p6 = false ->
  run_timer init_analyzer
    [(p0, 0); (p1, 1); (p2, 2); (p3, 3); (p4, 4); (p5, 5); (p6, 6)]
  = Ok {| phone_positions := [];
          active_usage_history := [];
          phone_hold_start_time := None;
          phone_hold_duration := 0 + (3 - 1) + 0;
          current_phone_timer := 0;
          is_phone_being_held := false |}.
Proof.
  intros H0 H1 H2 H3 H4 H5 H6. cbn [run_timer].
  do 7 timer_step.
  reflexivity.
Qed.

(** C2, as the code runs it.  With held inputs F,T,T,T,F at times 0..4 the
    current hold duration reads 0, 1, 2 at times 1, 2, 3: the segment is
    measured from the first held call (time 1), and the release call commits
    the timer as the last held call left it, so the total after the release at
    time 4 is 2.  A further hold that begins at time 5 and is released at
    time 6 has no held call after its first and adds 0: the total stays 2. *)
Theorem hold_timer_scenario (p0 p1 p2 p3 p4 p5 p6 : list Device) :
  any_held p0 = false -> any_held p1 = true -> any_held p2 = true ->
  any_held p3 = true -> any_held p4 = false ->
  any_held p5 = true -> any_held p6 = false ->
  run_timer_trace init_analyzer [(p0, 0); (p1, 1); (p2, 2); (p3, 3); (p4, 4)]
    = Ok [0; 0; 1; 2; 0]
  /\ (exists st,
        run_timer init_analyzer [(p0, 0); (p1, 1); (p2, 2); (p3, 3); (p4, 4)]
          = Ok st
        /\ get_total_phone_hold_duration st = 2)
  /\ (exists st,
        run_timer init_analyzer
          [(p0, 0); (p1, 1); (p2, 2); (p3, 3); (p4, 4); (p5, 5); (p6, 6)]
          = Ok st
        /\ get_total_phone_hold_duration st = 2).
Proof.
  intros H0 H1 H2 H3 H4 H5 H6. repeat split.
  - rewrite scenario_first_trace by assumption.
    repeat f_equal; lra.
  - eexists. split; [now apply scenario_first_run |].
    unfold get_total_phone_hold_duration. cbn. lra.
  - eexists. split; [now apply scenario_second_run |].
    unfold get_total_phone_hold_duration. cbn. lra.
Qed.

Lemma hold_timer_scenario_witness :
  run_timer_trace init_analyzer
    [([classified_phone false], 0); ([classified_phone true], 1);
     ([classified_phone true], 2); ([classified_phone true], 3);
     ([classified_phone false], 4)]
    = Ok [0; 0; 1; 2; 0]
  /\ (exists st,
        run_timer init_analyzer
          [([classified_phone false], 0); ([classified_phone true], 1);
           ([classified_phone true], 2); ([classified_phone true], 3);
           ([classified_phone false], 4)]
          = Ok st
        /\ get_total_phone_hold_duration st = 2)
  /\ (exists st,
        run_timer init_analyzer
          [([classified_phone false], 0); ([classified_phone true], 1);
           ([classified_phone true], 2); ([classified_phone true], 3);
           ([classified_phone false], 4); ([classified_phone true], 5);
           ([classified_phone false], 6)]
          = Ok st
        /\ get_total_phone_hold_duration st = 2).
Proof.
  apply (hold_timer_scenario
           [classified_phone false] [classified_phone true]
           [classified_phone true] [classified_phone true]
           [classified_phone false] [classified_phone true]
           [classified_phone false]); reflexivity.
Defined.

(** C2, as the specification words it, fails on the same run: the readings at
    times 1, 2, 3 are not 1, 2, 3, the total after the release is not 3, and
    the total after the second hold is not 4. *)
Lemma hold_timer_scenario_spec_values_fail :
  (forall r0 r4,
     run_timer_trace init_analyzer
       [([classified_phone false], 0); ([classified_phone true], 1);
        ([classified_phone true], 2); ([classified_phone true], 3);
        ([classified_phone false], 4)]
     <> Ok [r0; 1; 2; 3; r4])
  /\ (forall st,
        run_timer init_analyzer
          [([classified_phone false], 0); ([classified_phone true], 1);
           ([classified_phone true], 2); ([classified_phone true], 3);
           ([classified_phone false], 4)]
          = Ok st ->
        get_total_phone_hold_duration st <> 3)
  /\ (forall st,
        run_timer init_analyzer
          [([classified_phone false], 0); ([classified_phone true], 1);
           ([classified_phone true], 2); ([classified_phone true], 3);
           ([classified_phone false], 4); ([classified_phone true], 5);
           ([classified_phone false], 6)]
          = Ok st ->
        get_total_phone_hold_duration st <> 4).
Proof.
  repeat split.
  - intros r0 r4 Htrace.
    rewrite scenario_first_trace in Htrace by reflexivity.
    injection Htrace as _ H1 _ _ _. lra.
  - intros st Hrun.
    rewrite scenario_first_run in Hrun by reflexivity.
    injection Hrun as <-.
    unfold get_total_phone_hold_duration. cbn. lra.
  - intros st Hrun.
    rewrite scenario_second_run in Hrun by reflexivity.
    injection Hrun as <-.
    unfold get_total_phone_hold_duration. cbn. lra.
Qed.

(** *** The timer over arbitrary runs *)

Lemma timer_ok_init (now : R) : timer_ok now init_analyzer.
Proof.
  intro H. discriminate.
Qed.

Lemma timer_ok_later (now now' : R) (self : Analyzer) :
  now <= now' -> timer_ok now self -> timer_ok now' self.
Proof.
  intros Hle Hok Hheld. destruct (Hok Hheld) as (start & Hs & Hle' & Hpos).
  exists start. repeat split; [exact Hs | lra | exact Hpos].
Qed.

(** One call from a state that satisfies the invariant, with a clock that has
    not gone backward: the call returns, keeps the invariant, never lowers the
    accumulated duration, changes it only on a release, and starts a new
    segment at zero. *)
Lemma update_phone_timer_ok (now t fps : R) (self : Analyzer) (phones : list Device) :
  timer_ok now self -> now <= t ->
  exists self',
    update_phone_timer self phones fps t = Ok self'
    /\ timer_ok t self'
    /\ phone_hold_duration self <= phone_hold_duration self'
    /\ (phone_hold_duration self' <> phone_hold_duration self ->
        any_held phones = false /\ is_phone_being_held self = true)
    /\ (any_held phones = true -> is_phone_being_held self = false ->
        current_phone_timer self' = 0
        /\ is_phone_being_held self' = true
        /\ phone_hold_start_time self' = Some t).
Proof.
  intros Hok Hle.
  destruct (any_held phones) eqn:Hp; destruct (is_phone_being_held self) eqn:Hs.
  - destruct (Hok Hs) as (start & Hstart & Hsle & Hpos).
    eexists. split; [now apply timer_continue with (start := start) |].
    cbn. repeat split; try lra; try discriminate.
    intros _. exists start. cbn. repeat split; lra.
  - eexists. split; [now apply timer_begin |].
    cbn. repeat split; try lra; try discriminate.
    intros _. exists t. cbn. repeat split; lra.
  - destruct (Hok Hs) as (start & Hstart & Hsle & Hpos).
    eexists. split; [now apply timer_release |].
    cbn. repeat split; try lra; try discriminate.
  - eexists. split; [now apply timer_idle |].
    repeat split; try lra; try discriminate.
    now apply timer_ok_later with (now := now).
Qed.

Lemma nondecreasing_tail (t : R) (ts : list R) :
  nondecreasing (t :: ts) -> nondecreasing ts.
Proof.
  destruct ts as [| t' rest]; [intros _; exact I | now intros [_ H]].
Qed.

Lemma nondecreasing_app_left (ts us : list R) :
  nondecreasing (ts ++ us) -> nondecreasing ts.
Proof.
  induction ts as [| t rest IH]; [intros _; exact I |].
  destruct rest as [| t' rest]; [intros _; exact I |].
  intros [Hle Hrest]. split; [exact Hle | now apply IH].
Qed.

Lemma nondecreasing_app_last (ts : list R) (u : R) (us : list R) (d : R) :
  nondecreasing (ts ++ u :: us) -> ts <> [] -> last ts d <= u.
Proof.
  induction ts as [| t rest IH]; [congruence |].
  destruct rest as [| t' rest].
  - intros [Hle _] _. exact Hle.
  - intros [_ Hrest] _. change (last (t :: t' :: rest) d) with (last (t' :: rest) d).
    apply IH; [exact Hrest | discriminate].
Qed.

Lemma last_cons_shift {A : Type} (l : list A) :
  forall x d : A, last (x :: l) d = last l x.
Proof.
  induction l as [| y l IH]; intros x d; [reflexivity |].
  change (last (x :: y :: l) d) with (last (y :: l) d).
  now rewrite (IH y d), (IH y x).
Qed.

(** A whole run from a state that satisfies the invariant returns, and its
    final state satisfies the invariant at the last clock value. *)
Lemma run_timer_ok (calls : list (list Device * R)) :
  forall (now : R) (self : Analyzer),
    timer_ok now self ->
    nondecreasing (now :: map snd calls) ->
    exists self',
      run_timer self calls = Ok self'
      /\ timer_ok (last (map snd calls) now) self'
      /\ phone_hold_duration self <= phone_hold_duration self'.
Proof.
  induction calls as [| [phones t] rest IH]; intros now self Hok Hnd.
  - exists self. repeat split; [exact Hok | lra].
  - cbn [map snd] in Hnd. destruct Hnd as [Hle Hnd].
    destruct (update_phone_timer_ok now t 30 self phones Hok Hle)
      as (self1 & Hstep & Hok1 & Hmono & _).
    destruct (IH t self1 Hok1 Hnd) as (self' & Hrun & Hok' & Hmono').
    exists self'. cbn [run_timer]. rewrite Hstep. cbn [bind].
    repeat split; [exact Hrun | | lra].
    cbn [map snd]. now rewrite last_cons_shift.
Qed.

(** C8. In every run of [update_phone_timer] from the initial state with
    timestamps that never go backward, every call returns and
    [phone_hold_duration] does not decrease across it; it changes only when
    the call's input is not-held while the state is held; and a call that
    begins a hold leaves [current_phone_timer] at 0. *)
Theorem hold_duration_monotone_changes_only_on_release
    (before after : list (list Device * R)) (phones : list Device) (t fps : R) :
  nondecreasing (map snd (before ++ (phones, t) :: after)) ->
  exists self self',
    run_timer init_analyzer before = Ok self
    /\ update_phone_timer self phones fps t = Ok self'
    /\ 0 <= phone_hold_duration self
    /\ phone_hold_duration self <= phone_hold_duration self'
    /\ (phone_hold_duration self' <> phone_hold_duration self ->
        any_held phones = false /\ is_phone_being_held self = true)
    /\ (any_held phones = true -> is_phone_being_held self = false ->
        current_phone_timer self' = 0
        /\ is_phone_being_held self' = true
        /\ phone_hold_start_time self' = Some t).
Proof.
  intro Hnd. rewrite map_app in Hnd. cbn [map snd] in Hnd.
  set (now := hd t (map snd before)).
  assert (Hnd0 : nondecreasing (now :: map snd before)).
  { apply nondecreasing_app_left in Hnd. subst now.
    destruct (map snd before) as [| t0 ts]; [exact I |].
    cbn [hd]. split; [lra | exact Hnd]. }
  destruct (run_timer_ok before now init_analyzer (timer_ok_init now) Hnd0)
    as (self & Hrun & Hok & Hmono).
  assert (Hle : last (map snd before) now <= t).
  { destruct (map snd before) as [| t0 ts] eqn:Hm.
    - subst now. cbn. lra.
    - apply nondecreasing_app_last with (us := map snd after);
        [exact Hnd | discriminate]. }
  destruct (update_phone_timer_ok _ t fps self phones Hok Hle)
    as (self' & Hstep & _ & Hmono' & Hchange & Hbegin).
  exists self, self'. cbn [phone_hold_duration init_analyzer] in Hmono.
  repeat split; try assumption; try (now apply Hchange); try (now apply Hbegin).
Qed.

(** A hold from time 1 seen again at time 3, then released at time 4. *)
Lemma hold_duration_monotone_changes_only_on_release_witness :
  exists self self',
    run_timer init_analyzer
      [([classified_phone true], 1); ([classified_phone true], 3)] = Ok self
    /\ update_phone_timer self [classified_phone false] 30 4 = Ok self'
    /\ 0 <= phone_hold_duration self
    /\ phone_hold_duration self <= phone_hold_duration self'
    /\ (phone_hold_duration self' <> phone_hold_duration self ->
        any_held [classified_phone false] = false
        /\ is_phone_being_held self = true)
    /\ (any_held [classified_phone false] = true ->
        is_phone_being_held self = false ->
        current_phone_timer self' = 0
        /\ is_phone_being_held self' = true
        /\ phone_hold_start_time self' = Some 4).
Proof.
  apply (hold_duration_monotone_changes_only_on_release
           [([classified_phone true], 1); ([classified_phone true], 3)] []
           [classified_phone false] 4 30).
  cbn. repeat split; lra.
Defined.

(** C10. When a hold is in progress and its recorded start is [0.0], the
    truthiness test on the start time fails: the current hold duration reads
    0 and the total is the accumulated duration alone, without the segment in
    progress. *)
Theorem zero_start_time_reads_as_no_hold (self : Analyzer) :
  is_phone_being_held self = true ->
  phone_hold_start_time self = Some 0 ->
  get_phone_hold_duration self = 0
  /\ get_total_phone_hold_duration self = phone_hold_duration self.
Proof.
  intros Hheld Hstart.
  unfold get_phone_hold_duration, get_total_phone_hold_duration.
  rewrite Hheld, Hstart. cbn [opt_float_truthy andb].
  rewrite float_truthy_zero. split; reflexivity.
Qed.

Lemma zero_start_time_reads_as_no_hold_witness :
  get_phone_hold_duration held_since_zero = 0
  /\ get_total_phone_hold_duration held_since_zero
     = phone_hold_duration held_since_zero.
Proof.
  apply (zero_start_time_reads_as_no_hold held_since_zero); reflexivity.
Defined.

(** Such a state arises from a hold whose first call reads the clock at 0. *)
Lemma held_since_zero_reachable (self : Analyzer) :
  is_phone_being_held self = false ->
  exists self',
    run_timer self [([classified_phone true], 0); ([classified_phone true], 2)]
      = Ok self'
    /\ is_phone_being_held self' = true
    /\ phone_hold_start_time self' = Some 0
    /\ current_phone_timer self' = 2 - 0.
Proof.
  intro Hidle. cbn [run_timer].
  rewrite timer_begin by (reflexivity || assumption). cbn [bind].
  erewrite timer_continue by reflexivity. cbn [bind].
  eexists. split; [reflexivity |]. cbn. repeat split.
Qed.

(** ** Bounded histories *)

Section History.

Context {A : Type}.

Lemma most_recent_length (n : nat) (l : list A) :
  length (most_recent n l) = Nat.min n (length l).
Proof.
  unfold most_recent. rewrite length_skipn. lia.
Qed.

Lemma most_recent_short (n : nat) (l : list A) :
  (length l <= n)%nat -> most_recent n l = l.
Proof.
  intro H. unfold most_recent.
  replace (length l - n)%nat with 0%nat by lia. reflexivity.
Qed.

(** Items in front of at least [n] others are not among the [n] most recent. *)
Lemma most_recent_app_drop (n : nat) (pre suf : list A) :
  (n <= length suf)%nat -> most_recent n (pre ++ suf) = most_recent n suf.
Proof.
  intro H. unfold most_recent.
  rewrite skipn_app, length_app.
  rewrite skipn_all2 by lia. cbn [app].
  f_equal. lia.
Qed.

Lemma most_recent_absorb (n : nat) (l ys : list A) :
  most_recent n (most_recent n l ++ ys) = most_recent n (l ++ ys).
Proof.
  destruct (Nat.le_gt_cases (length l) n) as [Hshort | Hlong].
  - now rewrite (most_recent_short n l Hshort).
  - rewrite <- (firstn_skipn (length l - n) l) at 2.
    rewrite <- app_assoc.
    fold (most_recent n l).
    symmetry. apply most_recent_app_drop.
    rewrite length_app, most_recent_length. lia.
Qed.

Variable cfg : Config.
Hypothesis window_positive : (0 < max_history cfg)%nat.

Lemma slice_last_most_recent (l : list A) :
  slice_last (max_history cfg) l = most_recent (max_history cfg) l.
Proof.
  unfold slice_last. destruct (max_history cfg); [lia | reflexivity].
Qed.

Lemma trim_history_most_recent (xs : list A) :
  trim_history cfg xs = most_recent (max_history cfg) xs.
Proof.
  unfold trim_history. destruct (Nat.ltb_spec (max_history cfg) (length xs)).
  - apply slice_last_most_recent.
  - symmetry. now apply most_recent_short.
Qed.

End History.

Lemma update_tracking_histories (cfg : Config) (self : Analyzer)
    (phones : list Device) (idx : Z) :
  (0 < max_history cfg)%nat ->
  phone_positions (update_tracking cfg self phones idx)
    = most_recent (max_history cfg)
        (phone_positions self ++ [primary_position phones])
  /\ active_usage_history (update_tracking cfg self phones idx)
    = most_recent (max_history cfg)
        (active_usage_history self ++ [any_held phones]).
Proof.
  intro Hpos. cbn [update_tracking phone_positions active_usage_history].
  now rewrite !trim_history_most_recent.
Qed.

Lemma run_tracking_histories (cfg : Config) (frames : list (list Device)) :
  (0 < max_history cfg)%nat ->
  forall (self : Analyzer) (idx : Z),
    (length (phone_positions self) <= max_history cfg)%nat ->
    (length (active_usage_history self) <= max_history cfg)%nat ->
    phone_positions (run_tracking cfg self frames idx)
      = most_recent (max_history cfg)
          (phone_positions self ++ map primary_position frames)
    /\ active_usage_history (run_tracking cfg self frames idx)
      = most_recent (max_history cfg)
          (active_usage_history self ++ map any_held frames).
Proof.
  intro Hpos. induction frames as [| phones rest IH]; intros self idx Hp Ha.
  - cbn [run_tracking map]. rewrite !app_nil_r.
    now rewrite !most_recent_short.
  - cbn [run_tracking map].
    destruct (update_tracking_histories cfg self phones idx Hpos) as [Ep Ea].
    destruct (IH (update_tracking cfg self phones idx) (idx + 1)%Z) as [Rp Ra].
    + rewrite Ep, most_recent_length. lia.
    + rewrite Ea, most_recent_length. lia.
    + rewrite Rp, Ra, Ep, Ea, !most_recent_absorb, <- !app_assoc.
      split; reflexivity.
Qed.

(** C5. The window of both histories is
    [2 * max(MIN_MOTION_FRAMES, MAX_INACTIVE_FRAMES)].  When it is positive,
    after any sequence of [update_tracking] calls from the initial state the
    position history and the activity history each hold exactly that many of
    the most recently appended entries, oldest first (all of them while fewer
    were appended), so neither is ever longer than the window. *)
Theorem histories_keep_most_recent_window (cfg : Config)
    (frames : list (list Device)) (idx : Z) :
  (0 < 2 * Nat.max (MIN_MOTION_FRAMES cfg) (MAX_INACTIVE_FRAMES cfg))%nat ->
  max_history cfg
    = (2 * Nat.max (MIN_MOTION_FRAMES cfg) (MAX_INACTIVE_FRAMES cfg))%nat
  /\ phone_positions (run_tracking cfg init_analyzer frames idx)
    = most_recent (2 * Nat.max (MIN_MOTION_FRAMES cfg) (MAX_INACTIVE_FRAMES cfg))
        (map primary_position frames)
  /\ active_usage_history (run_tracking cfg init_analyzer frames idx)
    = most_recent (2 * Nat.max (MIN_MOTION_FRAMES cfg) (MAX_INACTIVE_FRAMES cfg))
        (map any_held frames)
  /\ length (phone_positions (run_tracking cfg init_analyzer frames idx))
     = Nat.min (2 * Nat.max (MIN_MOTION_FRAMES cfg) (MAX_INACTIVE_FRAMES cfg))
         (length frames)
  /\ length (active_usage_history (run_tracking cfg init_analyzer frames idx))
     = Nat.min (2 * Nat.max (MIN_MOTION_FRAMES cfg) (MAX_INACTIVE_FRAMES cfg))
         (length frames)
  /\ (length (phone_positions (run_tracking cfg init_analyzer frames idx))
      <= 2 * Nat.max (MIN_MOTION_FRAMES cfg) (MAX_INACTIVE_FRAMES cfg))%nat
  /\ (length (active_usage_history (run_tracking cfg init_analyzer frames idx))
      <= 2 * Nat.max (MIN_MOTION_FRAMES cfg) (MAX_INACTIVE_FRAMES cfg))%nat.
Proof.
  intro Hwindow.
  assert (Hformula : max_history cfg
                     = (2 * Nat.max (MIN_MOTION_FRAMES cfg)
                            (MAX_INACTIVE_FRAMES cfg))%nat)
    by (unfold max_history; lia).
  split; [exact Hformula |].
  rewrite <- Hformula in Hwindow |- *.
  destruct (run_tracking_histories cfg frames Hwindow init_analyzer idx)
    as [Ep Ea]; [cbn; lia | cbn; lia |].
  cbn [init_analyzer phone_positions active_usage_history app] in Ep, Ea.
  rewrite Ep, Ea, !most_recent_length, !length_map.
  repeat split; lia.
Qed.

(** Twenty-one frames through the window of config.py, 2 * max(3, 10) = 20:
    the first frame's entries are gone and the other twenty remain in
    order. *)
Lemma histories_keep_most_recent_window_witness :
  max_history default_config = 20%nat
  /\ phone_positions
      (run_tracking default_config init_analyzer
         ([] :: repeat [classified_phone true] 20) 0)
    = most_recent 20
        (map primary_position ([] :: repeat [classified_phone true] 20))
  /\ active_usage_history
      (run_tracking default_config init_analyzer
         ([] :: repeat [classified_phone true] 20) 0)
    = most_recent 20
        (map any_held ([] :: repeat [classified_phone true] 20))
  /\ length (phone_positions
               (run_tracking default_config init_analyzer
                  ([] :: repeat [classified_phone true] 20) 0))
     = Nat.min 20 21
  /\ length (active_usage_history
               (run_tracking default_config init_analyzer
                  ([] :: repeat [classified_phone true] 20) 0))
     = Nat.min 20 21
  /\ (length (phone_positions
                (run_tracking default_config init_analyzer
                   ([] :: repeat [classified_phone true] 20) 0))
      <= 20)%nat
  /\ (length (active_usage_history
                (run_tracking default_config init_analyzer
                   ([] :: repeat [classified_phone true] 20) 0))
      <= 20)%nat.
Proof.
  apply (histories_keep_most_recent_window default_config
           ([] :: repeat [classified_phone true] 20) 0).
  cbn. lia.
Defined.

Example default_window_drops_oldest :
  active_usage_history
    (run_tracking default_config init_analyzer
       ([] :: repeat [classified_phone true] 20) 0)
  = repeat true 20.
Proof.
  reflexivity.
Qed.

(** The window has to be positive: [xs[-0:]] is the whole list, so a zero
    window never trims. *)
Lemma zero_window_never_trims {A : Type} (cfg : Config) (xs : list A) :
  max_history cfg = 0%nat -> trim_history cfg xs = xs.
Proof.
  intro H. unfold trim_history, slice_last. rewrite H.
  now destruct (0 <? length xs)%nat.
Qed.

(** ** Temporal filter *)

Section TemporalFilter.

Variable cfg : Config.

(** C6. With fewer than [3 * MAX_INACTIVE_FRAMES] entries in the activity
    history the filter returns its input device list unchanged. *)
Theorem filter_noop_on_short_history (self : Analyzer) (phones : list Device) :
  (length (active_usage_history self) < 3 * MAX_INACTIVE_FRAMES cfg)%nat ->
  apply_temporal_filtering cfg self phones = Ok phones.
Proof.
  intro Hshort. unfold apply_temporal_filtering.
  destruct (active_usage_history self) as [| b bs] eqn:Hh; [reflexivity |].
  destruct (Nat.leb_spec (MAX_INACTIVE_FRAMES cfg * 3) (length (b :: bs)));
    [lia | reflexivity].
Qed.

Lemma slice_last_nonempty {A : Type} (n : nat) (l : list A) :
  l <> [] -> slice_last n l <> [].
Proof.
  intros Hl Hs. unfold slice_last in Hs. destruct n as [| n]; [congruence |].
  apply (f_equal (@length A)) in Hs. rewrite length_skipn in Hs.
  destruct l; [congruence | cbn [length] in Hs; lia].
Qed.

(** The division inside the filter never has a zero divisor. *)
Lemma recent_activity_rate_defined (self : Analyzer) :
  active_usage_history self <> [] ->
  exists rate,
    py_truediv
      (sum_bools (slice_last (MAX_INACTIVE_FRAMES cfg * 2) (active_usage_history self)))
      (Z.of_nat (length (slice_last (MAX_INACTIVE_FRAMES cfg * 2)
                           (active_usage_history self))))
    = Ok rate.
Proof.
  intro Hne. unfold py_truediv.
  pose proof (slice_last_nonempty (MAX_INACTIVE_FRAMES cfg * 2) _ Hne) as Hs.
  destruct (slice_last _ _) as [| b bs]; [congruence |].
  destruct (Z.eqb_spec (Z.of_nat (length (b :: bs))) 0) as [Hz | Hz].
  - cbn [length] in Hz. lia.
  - eexists. reflexivity.
Qed.

Lemma set_flags_false_classified (d : Device) :
  classified d = true -> get_is_being_held d = false ->
  set_flags d false false = d.
Proof.
  unfold classified, get_is_being_held, set_flags.
  destruct d as [bb cf ce ci [held |] [act |]]; cbn; try discriminate.
  intros Heq ->. apply Bool.eqb_prop in Heq. now subst act.
Qed.

Lemma clear_flags_classified (phones : list Device) :
  forallb classified phones = true -> any_held phones = false ->
  map (fun phone => set_flags phone false false) phones = phones.
Proof.
  unfold any_held. induction phones as [| d rest IH]; [reflexivity |].
  cbn [forallb existsb map]. intros Hc Hh.
  apply andb_true_iff in Hc as [Hd Hrest].
  apply orb_false_iff in Hh as [Hdh Hresth].
  now rewrite set_flags_false_classified, IH.
Qed.

(** The filter always returns, and it returns either its input or its input
    with every flag cleared, the latter only when no device is held. *)
Lemma filter_returns (self : Analyzer) (phones : list Device) :
  apply_temporal_filtering cfg self phones = Ok phones
  \/ (any_held phones = false
      /\ apply_temporal_filtering cfg self phones
         = Ok (map (fun phone => set_flags phone false false) phones)).
Proof.
  unfold apply_temporal_filtering.
  destruct (active_usage_history self) as [| b bs] eqn:Hh; [now left |].
  destruct (MAX_INACTIVE_FRAMES cfg * 3 <=? length (b :: bs))%nat; [| now left].
  destruct (recent_activity_rate_defined self) as [rate Hrate];
    [rewrite Hh; discriminate |].
  rewrite Hh in Hrate. rewrite Hrate. cbn [bind].
  destruct (float_eq rate 0); cbn [andb]; [| now left].
  destruct (any_held phones); cbn [negb]; [now left | now right].
Qed.

(** C7. On a device list as the classifier produces it (both flags present
    and equal on every device), whatever the activity history, the filter
    returns the list unchanged: no flag goes from false to true, nor from true
    to false. *)
Theorem filter_identity_on_classified (self : Analyzer) (phones : list Device) :
  forallb classified phones = true ->
  apply_temporal_filtering cfg self phones = Ok phones.
Proof.
  intro Hc. destruct (filter_returns self phones) as [H | [Hnone H]];
    [exact H |].
  rewrite H. now rewrite clear_flags_classified.
Qed.

(** On any device list the filter never turns a held verdict on. *)
Lemma filter_never_upgrades (self : Analyzer) (phones : list Device) :
  exists out,
    apply_temporal_filtering cfg self phones = Ok out
    /\ (any_held out = true -> any_held phones = true).
Proof.
  destruct (filter_returns self phones) as [H | [Hnone H]].
  - exists phones. now split.
  - eexists. split; [exact H |].
    intro Hout. exfalso. clear -Hout.
    unfold any_held in Hout. induction phones as [| d rest IH];
      [discriminate | cbn in Hout; auto].
Qed.

End TemporalFilter.

Lemma filter_noop_on_short_history_witness :
  apply_temporal_filtering default_config (idle_for 29) [classified_phone true]
  = Ok [classified_phone true].
Proof.
  apply (filter_noop_on_short_history default_config (idle_for 29)
           [classified_phone true]).
  unfold idle_for. cbn [active_usage_history].
  rewrite repeat_length. cbn [default_config MAX_INACTIVE_FRAMES]. lia.
Defined.

(** Thirty idle frames fill the window; the filter's rule fires on an idle
    phone and rewrites its flags to the values they already have. *)
Lemma filter_identity_on_classified_witness :
  apply_temporal_filtering default_config (idle_for 30) [classified_phone false]
  = Ok [classified_phone false].
Proof.
  apply (filter_identity_on_classified default_config (idle_for 30)
           [classified_phone false]).
  reflexivity.
Defined.

(** ** Usage statistics *)

Lemma sum_bools_from (bs : list bool) (acc : Z) :
  fold_left (fun acc (b : bool) => (acc + (if b then 1 else 0))%Z) bs acc
  = (acc + Z.of_nat (count_occ Bool.bool_dec bs true))%Z.
Proof.
  revert acc. induction bs as [| b bs IH]; intro acc; cbn [fold_left count_occ].
  - cbn. lia.
  - rewrite IH. destruct b; cbn; lia.
Qed.

Lemma sum_bools_count (bs : list bool) :
  sum_bools bs = Z.of_nat (count_occ Bool.bool_dec bs true).
Proof.
  unfold sum_bools. now rewrite sum_bools_from.
Qed.

(** C9. [get_usage_statistics] always returns.  On an empty activity history
    it returns the all-zero record; on a non-empty one the frame count is the
    history's length (so the divisor is not zero), the active count is the
    number of [True] entries, and the percentage is their quotient times
    100. *)
Theorem usage_statistics_never_divide_by_zero (self : Analyzer) :
  exists stats,
    get_usage_statistics self = Ok stats
    /\ (active_usage_history self = [] ->
        stats = {| total_frames := 0;
                   active_frames := 0;
                   usage_percentage := 0;
                   total_phone_hold_time := 0;
                   current_phone_hold_time := 0 |})
    /\ (active_usage_history self <> [] ->
        total_frames stats = Z.of_nat (length (active_usage_history self))
        /\ (0 < total_frames stats)%Z
        /\ active_frames stats
           = Z.of_nat (count_occ Bool.bool_dec (active_usage_history self) true)
        /\ usage_percentage stats
           = IZR (active_frames stats) / IZR (total_frames stats) * 100
        /\ total_phone_hold_time stats = get_total_phone_hold_duration self
        /\ current_phone_hold_time stats = get_phone_hold_duration self).
Proof.
  unfold get_usage_statistics.
  destruct (active_usage_history self) as [| b bs] eqn:Hh.
  - eexists. split; [reflexivity |]. split; [reflexivity | congruence].
  - unfold py_truediv.
    destruct (Z.eqb_spec (Z.of_nat (length (b :: bs))) 0) as [Hz | Hz];
      [cbn [length] in Hz; lia |].
    cbn [bind]. eexists. split; [reflexivity |].
    split; [discriminate |]. intros _.
    cbn [total_frames active_frames usage_percentage total_phone_hold_time
         current_phone_hold_time].
    split; [reflexivity |].
    split; [cbn [length]; lia |].
    split; [apply sum_bools_count |].
    repeat split.
Qed.

Lemma usage_statistics_never_divide_by_zero_witness :
  exists stats,
    get_usage_statistics init_analyzer = Ok stats
    /\ stats = {| total_frames := 0;
                  active_frames := 0;
                  usage_percentage := 0;
                  total_phone_hold_time := 0;
                  current_phone_hold_time := 0 |}.
Proof.
  destruct (usage_statistics_never_divide_by_zero init_analyzer)
    as (stats & Hget & Hempty & _).
  exists stats. split; [exact Hget | apply Hempty; reflexivity].
Defined.

(** ** Session extractor *)

Lemma py_last_app {A : Type} (l : list A) (x : A) : py_last (l ++ [x]) = Ok x.
Proof.
  induction l as [| y l IH]; [reflexivity |].
  cbn [app py_last]. destruct (l ++ [x]) eqn:E; [| exact IH].
  now destruct l.
Qed.

(** An inactive frame leaves no session open. *)
Lemma session_step_inactive (state : list Session * option OpenSession)
    (frame : FrameData) :
  active_phone_usage frame = false -> snd (session_step state frame) = None.
Proof.
  intro H. destruct state as [ss [cur |]]; unfold session_step; now rewrite H.
Qed.

(** Active frames neither close the open session nor move its start. *)
Lemma scan_active_run (run : list FrameData) (ss : list Session) (cur : OpenSession) :
  forallb active_phone_usage run = true ->
  fold_left session_step run (ss, Some cur) = (ss, Some cur).
Proof.
  induction run as [| f run IH]; [reflexivity |].
  cbn [forallb fold_left]. intro H. apply andb_true_iff in H as [Hf Hrun].
  unfold session_step at 2. rewrite Hf. now apply IH.
Qed.

(** A prefix that is empty or ends with an inactive frame is scanned to a
    state with no open session. *)
Lemma scan_closed_prefix (pre : list FrameData) :
  pre = [] \/ (exists pre' g, pre = pre' ++ [g] /\ active_phone_usage g = false) ->
  snd (fold_left session_step pre ([], None)) = None.
Proof.
  intros [-> | (pre' & g & -> & Hg)]; [reflexivity |].
  rewrite fold_left_app. cbn [fold_left]. now apply session_step_inactive.
Qed.

(** Every sequence that ends with an active frame splits into a prefix that
    is empty or ends inactive, and a final run of active frames. *)
Lemma trailing_active_run (earlier : list FrameData) :
  forall last_frame,
    active_phone_usage last_frame = true ->
    exists pre s run,
      earlier ++ [last_frame] = pre ++ s :: run
      /\ forallb active_phone_usage (s :: run) = true
      /\ (pre = []
          \/ exists pre' g, pre = pre' ++ [g] /\ active_phone_usage g = false).
Proof.
  induction earlier as [| g earlier' IH] using rev_ind; intros last_frame Hlast.
  - exists [], last_frame, []. cbn. rewrite Hlast. repeat split. now left.
  - destruct (active_phone_usage g) eqn:Hg.
    + destruct (IH g Hg) as (pre & s & run & Hsplit & Hrun & Hpre).
      exists pre, s, (run ++ [last_frame]). split; [| split].
      * rewrite Hsplit, <- app_assoc. reflexivity.
      * change (s :: run ++ [last_frame]) with ((s :: run) ++ [last_frame]).
        rewrite forallb_app, Hrun. cbn. now rewrite Hlast.
      * exact Hpre.
    + exists (earlier' ++ [g]), last_frame, []. split; [| split].
      * reflexivity.
      * cbn. now rewrite Hlast.
      * right. now exists earlier', g.
Qed.

(** The scan of such a sequence: the sessions closed inside the prefix, then
    one session from the run's first frame to the sequence's last frame. *)
Lemma find_usage_sessions_trailing_run (pre run : list FrameData)
    (s last_frame : FrameData) (earlier : list FrameData) :
  earlier ++ [last_frame] = pre ++ s :: run ->
  forallb active_phone_usage (s :: run) = true ->
  pre = [] \/ (exists pre' g, pre = pre' ++ [g] /\ active_phone_usage g = false) ->
  find_usage_sessions (earlier ++ [last_frame])
  = Ok (fst (fold_left session_step pre ([], None))
        ++ [close_session {| open_start_time := timestamp s;
                             open_start_frame := frame_idx s |} last_frame]).
Proof.
  intros Hsplit Hrun Hpre. unfold find_usage_sessions.
  rewrite py_last_app. rewrite Hsplit, fold_left_app.
  pose proof (scan_closed_prefix pre Hpre) as Hclosed.
  destruct (fold_left session_step pre ([], None)) as [ss cur].
  cbn [snd] in Hclosed. subst cur.
  cbn [forallb] in Hrun. apply andb_true_iff in Hrun as [Hs Hrun].
  cbn [fold_left]. unfold session_step at 2. rewrite Hs.
  rewrite scan_active_run by exact Hrun.
  reflexivity.
Qed.

(** The summary of a non-empty video exists whenever the scan returns. *)
Lemma get_usage_summary_sessions (an : Analyzer) (data : list FrameData)
    (sessions : list Session) :
  data <> [] ->
  find_usage_sessions data = Ok sessions ->
  exists summary,
    get_usage_summary {| analyzer := an; usage_data := data |} = Ok (Some summary)
    /\ usage_sessions summary = sessions
    /\ total_usage_time summary = sum_durations sessions.
Proof.
  intros Hne Hscan. unfold get_usage_summary. cbn [usage_data analyzer].
  destruct data as [| f rest]; [congruence |].
  unfold py_truediv.
  destruct (Z.eqb_spec (Z.of_nat (length (f :: rest))) 0) as [Hz | Hz];
    [cbn [length] in Hz; lia |].
  cbn [bind]. rewrite Hscan. cbn [bind].
  eexists. split; [reflexivity |]. split; reflexivity.
Qed.

(** C4. For every frame sequence whose last frame is active, the summary
    exists and its last session is the one still open at the end: it starts at
    the first frame of the final run of active frames and is closed with the
    last frame's timestamp and frame index, its duration being the last
    timestamp minus its start timestamp.  The sessions before it are those
    closed inside the preceding frames. *)
Theorem open_session_closed_at_last_frame (an : Analyzer)
    (earlier : list FrameData) (last_frame : FrameData) :
  active_phone_usage last_frame = true ->
  exists summary pre s run,
    get_usage_summary {| analyzer := an; usage_data := earlier ++ [last_frame] |}
      = Ok (Some summary)
    /\ earlier ++ [last_frame] = pre ++ s :: run
    /\ forallb active_phone_usage (s :: run) = true
    /\ (pre = []
        \/ exists pre' g, pre = pre' ++ [g] /\ active_phone_usage g = false)
    /\ usage_sessions summary
       = fst (fold_left session_step pre ([], None))
         ++ [ {| start_time := timestamp s;
                 start_frame := frame_idx s;
                 end_time := timestamp last_frame;
                 end_frame := frame_idx last_frame;
                 duration := timestamp last_frame - timestamp s |} ].
Proof.
  intro Hlast.
  destruct (trailing_active_run earlier last_frame Hlast)
    as (pre & s & run & Hsplit & Hrun & Hpre).
  pose proof (find_usage_sessions_trailing_run pre run s last_frame earlier
                Hsplit Hrun Hpre) as Hscan.
  destruct (get_usage_summary_sessions an (earlier ++ [last_frame]) _
              ltac:(now destruct earlier) Hscan)
    as (summary & Hsum & Hsessions & _).
  exists summary, pre, s, run.
  repeat split; try assumption.
Qed.

Lemma open_session_closed_at_last_frame_witness :
  exists summary pre s run,
    get_usage_summary
      {| analyzer := init_analyzer;
         usage_data := frames_of_activity 30 0 [false; true]
                       ++ frames_of_activity 30 2 [true] |}
      = Ok (Some summary)
    /\ frames_of_activity 30 0 [false; true] ++ frames_of_activity 30 2 [true]
       = pre ++ s :: run
    /\ forallb active_phone_usage (s :: run) = true
    /\ (pre = []
        \/ exists pre' g, pre = pre' ++ [g] /\ active_phone_usage g = false)
    /\ usage_sessions summary
       = fst (fold_left session_step pre ([], None))
         ++ [ {| start_time := timestamp s;
                 start_frame := frame_idx s;
                 end_time := IZR 2 / 30;
                 end_frame := 2;
                 duration := IZR 2 / 30 - timestamp s |} ].
Proof.
  apply (open_session_closed_at_last_frame init_analyzer
           (frames_of_activity 30 0 [false; true])
           {| frame_idx := 2;
              timestamp := IZR 2 / 30;
              phones_detected := 0;
              tap_to_pay_detected := 0;
              hands_detected := 0;
              active_phone_usage := true;
              tap_to_pay_usage := false |}).
  reflexivity.
Defined.

(** The activity sequence F,F,T,T,T,F,F,T,F at thirty frames per second. *)
Lemma scenario_sessions :
  find_usage_sessions
    (frames_of_activity 30 0
       [false; false; true; true; true; false; false; true; false])
  = Ok [ {| start_time := 2 / 30;
            start_frame := 2;
            end_time := 5 / 30;
            end_frame := 5;
            duration := 5 / 30 - 2 / 30 |};
         {| start_time := 7 / 30;
            start_frame := 7;
            end_time := 8 / 30;
            end_frame := 8;
            duration := 8 / 30 - 7 / 30 |} ].
Proof.
  reflexivity.
Qed.

(** C3, as the code runs it.  On the activity sequence F,F,T,T,T,F,F,T,F with
    timestamp i/30 at frame i, the summary has exactly two sessions.  A
    session is closed with the timestamp and index of the first inactive frame
    after its run: session 1 starts at frame 2 and ends at frame 5 (duration
    3/30), session 2 starts at frame 7 and ends at frame 8 (duration 1/30). *)
Theorem session_scenario (an : Analyzer) :
  exists summary s1 s2,
    get_usage_summary
      {| analyzer := an;
         usage_data :=
           frames_of_activity 30 0
             [false; false; true; true; true; false; false; true; false] |}
      = Ok (Some summary)
    /\ usage_sessions summary = [s1; s2]
    /\ start_frame s1 = 2%Z /\ end_frame s1 = 5%Z
    /\ start_time s1 = 2 / 30 /\ end_time s1 = 5 / 30
    /\ duration s1 = 3 / 30
    /\ start_frame s2 = 7%Z /\ end_frame s2 = 8%Z
    /\ start_time s2 = 7 / 30 /\ end_time s2 = 8 / 30
    /\ duration s2 = 1 / 30.
Proof.
  edestruct (get_usage_summary_sessions an) as (summary & Hsum & Hsessions & _);
    [| exact scenario_sessions |];
    [cbn [frames_of_activity]; discriminate |].
  exists summary. do 2 eexists.
  split; [exact Hsum |]. split; [exact Hsessions |].
  cbn [start_frame end_frame start_time end_time duration].
  repeat split; lra.
Qed.

(** C3, as the specification words it, fails on that input: session 1 does
    not end at frame 4, and session 2 does not end at frame 7, its end time
    differs from its start time and its duration is not 0. *)
Lemma session_scenario_spec_values_fail :
  exists summary s1 s2,
    get_usage_summary
      {| analyzer := init_analyzer;
         usage_data :=
           frames_of_activity 30 0
             [false; false; true; true; true; false; false; true; false] |}
      = Ok (Some summary)
    /\ usage_sessions summary = [s1; s2]
    /\ end_frame s1 <> 4%Z
    /\ end_frame s2 <> 7%Z
    /\ start_time s2 <> end_time s2
    /\ duration s2 <> 0.
Proof.
  edestruct (get_usage_summary_sessions init_analyzer)
    as (summary & Hsum & Hsessions & _);
    [| exact scenario_sessions |];
    [cbn [frames_of_activity]; discriminate |].
  exists summary. do 2 eexists.
  split; [exact Hsum |]. split; [exact Hsessions |].
  cbn [start_frame end_frame start_time end_time duration].
  repeat split; try discriminate; lra.
Qed.

(** ** Frame orchestrator *)

Lemma set_flags_classified (d : Device) (held : bool) :
  classified (set_flags d held held) = true.
Proof.
  unfold classified, set_flags. cbn. now destruct held.
Qed.

(** The classifier leaves every device with both flags present and equal. *)
Lemma analyze_phone_classified (cfg : Config) (phones : list Device)
    (hands : list Hand) (shape : FrameShape) :
  forallb classified (analyze_phone_hand_interaction cfg phones hands shape) = true.
Proof.
  induction phones as [| p rest IH]; [reflexivity |].
  cbn [analyze_phone_hand_interaction forallb].
  now rewrite set_flags_classified, IH.
Qed.

(** A frame processed from a state that satisfies the timer invariant, with a
    clock that has not gone backward, returns; the phones it returns are the
    classifier's, untouched by the filter, and the invariant holds again. *)
Lemma process_frame_returns (cfg : Config) (self : Analyzer)
    (phones taps : list Device) (hands : list Hand) (shape : FrameShape)
    (idx : Z) (fps now t : R) :
  timer_ok now self -> now <= t ->
  exists self',
    process_frame cfg self phones taps hands shape idx fps t
    = Ok (self',
          (analyze_phone_hand_interaction cfg phones hands shape,
           analyze_tap_to_pay_hand_interaction cfg taps hands shape,
           hands))
    /\ timer_ok t self'.
Proof.
  intros Hok Hle. unfold process_frame.
  destruct (update_phone_timer_ok now t fps self
              (analyze_phone_hand_interaction cfg phones hands shape) Hok Hle)
    as (self1 & Hstep & Hok1 & _).
  rewrite Hstep. cbn [bind].
  set (classified_phones := analyze_phone_hand_interaction cfg phones hands shape).
  set (self2 := update_tracking cfg self1 classified_phones idx).
  assert (Hfilter : apply_temporal_filtering cfg self2 classified_phones
                    = Ok classified_phones).
  { destruct (filter_returns cfg self2 classified_phones) as [H | [Hnone H]];
      [exact H |].
    rewrite H, clear_flags_classified;
      [reflexivity | apply analyze_phone_classified | exact Hnone]. }
  rewrite Hfilter. cbn [bind].
  exists self2. split; [reflexivity |].
  intro Hheld. destruct (Hok1 Hheld) as (start & Hs & Hsle & Hpos).
  exists start. repeat split; assumption.
Qed.

(** * Further properties *)

(** ** Geometry *)

Lemma calculate_distance_nonneg (p q : Point) : 0 <= calculate_distance p q.
Proof.
  apply sqrt_pos.
Qed.

(** [calculate_distance] is never negative, does not depend on the order of
    its arguments, and is zero exactly between equal points. *)
Theorem calculate_distance_metric (p q : Point) :
  0 <= calculate_distance p q
  /\ calculate_distance p q = calculate_distance q p
  /\ (calculate_distance p q = 0 <-> p = q).
Proof.
  unfold calculate_distance. destruct p as [px py], q as [qx qy]. cbn [fst snd].
  split; [apply sqrt_pos |]. split; [f_equal; ring |].
  split.
  - intro H.
    pose proof (pow2_ge_0 (px - qx)) as Hx.
    pose proof (pow2_ge_0 (py - qy)) as Hy.
    apply sqrt_eq_0 in H; [| lra].
    assert (Hx0 : (px - qx) ^ 2 = 0) by lra.
    assert (Hy0 : (py - qy) ^ 2 = 0) by lra.
    assert (Ex : px - qx = 0).
    { destruct (Req_dec (px - qx) 0) as [E | E]; [exact E |].
      exfalso. exact (pow_nonzero _ 2 E Hx0). }
    assert (Ey : py - qy = 0).
    { destruct (Req_dec (py - qy) 0) as [E | E]; [exact E |].
      exfalso. exact (pow_nonzero _ 2 E Hy0). }
    f_equal; lra.
  - intro H. injection H as -> ->.
    replace ((qx - qx) ^ 2 + (qy - qy) ^ 2) with 0 by ring. apply sqrt_0.
Qed.

(** The center of a box whose corners are ordered lies inside the box, at
    the same distance from both corners. *)
Theorem get_phone_center_inside (x1 y1 x2 y2 : R) :
  x1 <= x2 -> y1 <= y2 ->
  x1 <= fst (get_phone_center (x1, y1, x2, y2)) <= x2
  /\ y1 <= snd (get_phone_center (x1, y1, x2, y2)) <= y2
  /\ calculate_distance (get_phone_center (x1, y1, x2, y2)) (x1, y1)
     = calculate_distance (get_phone_center (x1, y1, x2, y2)) (x2, y2).
Proof.
  intros Hx Hy. unfold get_phone_center, calculate_distance. cbn [fst snd].
  repeat split; try lra. f_equal. field.
Qed.

Lemma get_phone_center_inside_witness :
  50 <= fst (get_phone_center (50, 60, 150, 140)) <= 150
  /\ 60 <= snd (get_phone_center (50, 60, 150, 140)) <= 140
  /\ calculate_distance (get_phone_center (50, 60, 150, 140)) (50, 60)
     = calculate_distance (get_phone_center (50, 60, 150, 140)) (150, 140).
Proof.
  apply (get_phone_center_inside 50 60 150 140); lra.
Defined.

(** With a negative distance threshold no hand is ever close to any device,
    so the classifier holds nothing. *)
Theorem negative_threshold_holds_nothing (cfg : Config) (phones : list Device)
    (hands : list Hand) (shape : FrameShape) :
  (PHONE_HAND_DISTANCE_THRESHOLD cfg < 0)%Z ->
  any_held (analyze_phone_hand_interaction cfg phones hands shape) = false.
Proof.
  intro Hneg.
  assert (Hloop : forall c, hand_loop cfg c hands shape = false).
  { intro c. induction hands as [| hand rest IH]; [reflexivity |].
    cbn [hand_loop]. rewrite IH.
    unfold is_phone_hand_close. destruct shape as [h w].
    destruct (Rle_dec _ _) as [Hle | _]; [| reflexivity].
    exfalso. apply IZR_lt in Hneg.
    match type of Hle with
    | calculate_distance ?a ?b <= _ =>
        pose proof (calculate_distance_nonneg a b)
    end.
    lra. }
  unfold any_held. induction phones as [| p rest IH]; [reflexivity |].
  cbn [analyze_phone_hand_interaction existsb]. rewrite IH, Hloop. reflexivity.
Qed.

Lemma negative_threshold_holds_nothing_witness :
  any_held
    (analyze_phone_hand_interaction
       {| PHONE_HAND_DISTANCE_THRESHOLD := -1;
          MIN_MOTION_FRAMES := 3;
          MAX_INACTIVE_FRAMES := 10 |}
       [sample_phone] [sample_hand] (200, 200)%Z)
  = false.
Proof.
  apply (negative_threshold_holds_nothing
           {| PHONE_HAND_DISTANCE_THRESHOLD := -1;
              MIN_MOTION_FRAMES := 3;
              MAX_INACTIVE_FRAMES := 10 |}
           [sample_phone] [sample_hand] (200, 200)%Z).
  reflexivity.
Defined.

(** ** Interaction classifier, continued *)


(** More hands never release a device: if every hand of one frame is also in
    another, each device held in the first is held in the second.  In
    particular the order of the hands does not matter. *)
Theorem classifier_monotone_in_hands (cfg : Config) (phones : list Device)
    (hands hands' : list Hand) (shape : FrameShape) (i : nat) (d d' : Device) :
  incl hands hands' ->
  nth_error (analyze_phone_hand_interaction cfg phones hands shape) i = Some d ->
  nth_error (analyze_phone_hand_interaction cfg phones hands' shape) i = Some d' ->
  get_is_being_held d = true ->
  get_is_being_held d' = true.
Proof.
  intros Hincl Hd Hd' Hheld. destruct shape as [fh fw].
  destruct (nth_error phones i) as [p |] eqn:Hp.
  - rewrite (analyze_phone_nth cfg phones hands (fh, fw) i p Hp) in Hd.
    rewrite (analyze_phone_nth cfg phones hands' (fh, fw) i p Hp) in Hd'.
    injection Hd as <-. injection Hd' as <-.
    cbn in Hheld |- *.
    apply hand_loop_true_iff in Hheld as (hand & Hin & Hclose).
    apply hand_loop_true_iff. exists hand. split; [now apply Hincl | exact Hclose].
  - exfalso. apply nth_error_None in Hp.
    assert (Hlen : length (analyze_phone_hand_interaction cfg phones hands (fh, fw))
                   = length phones).
    { clear. induction phones as [| q rest IH]; [reflexivity |].
      cbn [analyze_phone_hand_interaction length]. now rewrite IH. }
    assert (Hsome : nth_error (analyze_phone_hand_interaction cfg phones hands (fh, fw)) i
                    <> None) by congruence.
    apply nth_error_Some in Hsome. lia.
Qed.

(** The sample hand is on the sample phone in a 200 by 200 frame. *)
Lemma sample_hand_loop (rest : list Hand) :
  hand_loop default_config (center sample_phone) (sample_hand :: rest)
    (200, 200)%Z = true.
Proof.
  apply hand_loop_true_iff. exists sample_hand. split; [now left |].
  unfold spec_pixel_distance. cbn.
  replace ((100 - 1 / 2 * 200) * (100 - 1 / 2 * 200)
           + (100 - 1 / 2 * 200) * (100 - 1 / 2 * 200)) with 0 by field.
  rewrite sqrt_0. lra.
Qed.

Lemma classifier_monotone_in_hands_witness :
  get_is_being_held (set_flags sample_phone true true) = true.
Proof.
  apply (classifier_monotone_in_hands default_config [sample_phone]
           [sample_hand] [sample_hand; sample_hand] (200, 200)%Z 0
           (set_flags sample_phone true true) (set_flags sample_phone true true)).
  - intros h [<- | []]. now left.
  - cbn [analyze_phone_hand_interaction nth_error].
    now rewrite sample_hand_loop.
  - cbn [analyze_phone_hand_interaction nth_error].
    now rewrite sample_hand_loop.
  - reflexivity.
Defined.

(** ** Device detection *)

Lemma detect_step_fold (boxes : list Box) (phones taps : list Device) :
  fold_left detect_step boxes (phones, taps)
  = (phones ++ map device_info
                 (filter (fun b => (box_cls b =? CLASS_PHONE)%Z) boxes),
     taps ++ map device_info
               (filter (fun b => (box_cls b =? CLASS_TAP_TO_PAY)%Z) boxes)).
Proof.
  revert phones taps. induction boxes as [| b rest IH]; intros phones taps.
  - cbn. now rewrite !app_nil_r.
  - cbn [fold_left filter]. unfold detect_step at 2.
    destruct (Z.eqb_spec (box_cls b) CLASS_PHONE) as [Hp | Hp].
    + rewrite IH. rewrite Hp. cbn [Z.eqb CLASS_PHONE CLASS_TAP_TO_PAY map].
      now rewrite <- app_assoc.
    + destruct (Z.eqb_spec (box_cls b) CLASS_TAP_TO_PAY) as [Ht | Ht].
      * rewrite IH. cbn [map]. now rewrite <- app_assoc.
      * now rewrite IH.
Qed.

Lemma detect_devices_filter (results : list (option (list Box))) :
  detect_devices results
  = (map device_info
       (filter (fun b => (box_cls b =? CLASS_PHONE)%Z) (all_boxes results)),
     map device_info
       (filter (fun b => (box_cls b =? CLASS_TAP_TO_PAY)%Z) (all_boxes results))).
Proof.
  unfold detect_devices.
  assert (Hgen : forall phones taps,
    fold_left
      (fun lists boxes =>
         match boxes with
         | Some boxes => fold_left detect_step boxes lists
         | None => lists
         end) results (phones, taps)
    = (phones ++ map device_info
                   (filter (fun b => (box_cls b =? CLASS_PHONE)%Z) (all_boxes results)),
       taps ++ map device_info
                 (filter (fun b => (box_cls b =? CLASS_TAP_TO_PAY)%Z)
                    (all_boxes results)))).
  { induction results as [| r rest IH]; intros phones taps.
    - cbn. now rewrite !app_nil_r.
    - cbn [fold_left all_boxes flat_map]. destruct r as [boxes |].
      + rewrite detect_step_fold, IH.
        fold (all_boxes rest).
        now rewrite !filter_app, !map_app, <- !app_assoc.
      + rewrite IH. reflexivity. }
  apply (Hgen [] []).
Qed.


Lemma any_held_device_info (boxes : list Box) :
  any_held (map device_info boxes) = false.
Proof.
  unfold any_held. induction boxes as [| b rest IH]; [reflexivity | exact IH].
Qed.

(** Devices straight from the detector carry no [is_being_held] key, so every
    reader that uses the default sees them as not held: fed to the timer
    without classification they never start a hold. *)
Theorem detected_devices_read_as_not_held (results : list (option (list Box)))
    (self : Analyzer) (fps t : R) :
  any_held (fst (detect_devices results)) = false
  /\ any_held (snd (detect_devices results)) = false
  /\ (is_phone_being_held self = false ->
      update_phone_timer self (fst (detect_devices results)) fps t = Ok self).
Proof.
  rewrite detect_devices_filter. cbn [fst snd].
  repeat split; try apply any_held_device_info.
  intro Hidle. apply timer_idle; [apply any_held_device_info | exact Hidle].
Qed.

(** ** Hold timer, continued *)

Lemma update_phone_timer_started (self : Analyzer) (phones : list Device) (fps t : R) :
  timer_started self ->
  exists self',
    update_phone_timer self phones fps t = Ok self'
    /\ timer_started self'
    /\ is_phone_being_held self' = any_held phones
    /\ phone_positions self' = phone_positions self
    /\ active_usage_history self' = active_usage_history self.
Proof.
  intro Hok.
  destruct (any_held phones) eqn:Hp; destruct (is_phone_being_held self) eqn:Hs.
  - destruct (Hok Hs) as (start & Hstart).
    eexists. split; [now apply timer_continue with (start := start) |].
    repeat split. intros _. now exists start.
  - eexists. split; [now apply timer_begin |].
    repeat split. intros _. now exists t.
  - eexists. split; [now apply timer_release |].
    repeat split. intro H. discriminate H.
  - exists self. split; [now apply timer_idle |].
    repeat split; [exact Hok | exact Hs].
Qed.

(** From the initial state a run of the timer never raises, whatever the
    clock does, and the state's held flag is the input of the last call. *)
Theorem run_timer_never_raises (calls : list (list Device * R)) :
  exists self,
    run_timer init_analyzer calls = Ok self
    /\ is_phone_being_held self
       = last (map (fun call => any_held (fst call)) calls) false.
Proof.
  assert (Hgen : forall self0, timer_started self0 ->
    exists self,
      run_timer self0 calls = Ok self
      /\ is_phone_being_held self
         = last (map (fun call => any_held (fst call)) calls)
             (is_phone_being_held self0)).
  { induction calls as [| [phones t] rest IH]; intros self0 Hok.
    - exists self0. now split.
    - destruct (update_phone_timer_started self0 phones 30 t Hok)
        as (self1 & Hstep & Hok1 & Hheld & _).
      destruct (IH self1 Hok1) as (self & Hrun & Hlast).
      exists self. cbn [run_timer]. rewrite Hstep. cbn [bind].
      split; [exact Hrun |].
      rewrite Hlast, Hheld. cbn [map fst]. now rewrite last_cons_shift. }
  apply (Hgen init_analyzer). intro H. discriminate H.
Qed.

Lemma last_map_default {A B : Type} (f : A -> B) (l : list A) (d : A) :
  last (map f l) (f d) = f (last l d).
Proof.
  induction l as [| x l IH]; [reflexivity |].
  cbn [map]. rewrite !last_cons_shift.
  clear IH. revert x. induction l as [| y l IH]; intro x; [reflexivity |].
  cbn [map]. rewrite !last_cons_shift. apply IH.
Qed.

Lemma run_timer_app (calls1 calls2 : list (list Device * R)) (self : Analyzer) :
  run_timer self (calls1 ++ calls2)
  = (self' <- run_timer self calls1 ;; run_timer self' calls2).
Proof.
  revert self. induction calls1 as [| [phones t] rest IH]; intro self;
    [reflexivity |].
  cbn [app run_timer].
  destruct (update_phone_timer self phones 30 t) as [self1 | e];
    [cbn [bind]; apply IH | reflexivity].
Qed.

(** Held calls after the first of a hold move only the segment timer, to the
    time since the start. *)
Lemma run_timer_continues (conts : list (list Device * R)) :
  forall (self : Analyzer) (start : R),
    is_phone_being_held self = true ->
    phone_hold_start_time self = Some start ->
    forallb (fun call => any_held (fst call)) conts = true ->
    run_timer self conts
    = Ok {| phone_positions := phone_positions self;
            active_usage_history := active_usage_history self;
            phone_hold_start_time := Some start;
            phone_hold_duration := phone_hold_duration self;
            current_phone_timer :=
              last (map (fun call => snd call - start) conts)
                (current_phone_timer self);
            is_phone_being_held := true |}.
Proof.
  induction conts as [| [phones t] rest IH]; intros self start Hheld Hstart Hall.
  - cbn. destruct self; cbn in *. now subst.
  - cbn [forallb fst] in Hall. apply andb_true_iff in Hall as [Hp Hrest].
    cbn [run_timer].
    rewrite (timer_continue self phones 30 t start Hp Hheld Hstart). cbn [bind].
    erewrite IH; [| reflexivity | reflexivity | exact Hrest].
    cbn [phone_positions active_usage_history phone_hold_duration
         current_phone_timer map snd].
    now rewrite last_cons_shift.
Qed.

(** One whole hold: a first held call at [t0], any number of further held
    calls, then a release.  The accumulated duration grows by the time from
    the first held call to the last held call; the time of the release call
    plays no part, and a hold with a single held call adds nothing. *)
Theorem hold_segment_adds_first_to_last_held (self : Analyzer)
    (p0 : list Device) (t0 : R) (conts : list (list Device * R))
    (p_release : list Device) (t_release : R) :
  is_phone_being_held self = false ->
  any_held p0 = true ->
  forallb (fun call => any_held (fst call)) conts = true ->
  any_held p_release = false ->
  exists self',
    run_timer self ((p0, t0) :: conts ++ [(p_release, t_release)]) = Ok self'
    /\ phone_hold_duration self'
       = phone_hold_duration self + (last (map snd conts) t0 - t0)
    /\ is_phone_being_held self' = false
    /\ get_total_phone_hold_duration self' = phone_hold_duration self'.
Proof.
  intros Hidle Hp0 Hconts Hrel.
  cbn [run_timer]. rewrite (timer_begin self p0 30 t0 Hp0 Hidle). cbn [bind].
  rewrite run_timer_app.
  erewrite run_timer_continues; [| reflexivity | reflexivity | exact Hconts].
  cbn [bind].
  cbn [run_timer]. rewrite timer_release by (assumption || reflexivity).
  cbn [bind]. eexists. split; [reflexivity |].
  cbn [phone_hold_duration current_phone_timer is_phone_being_held
       phone_positions active_usage_history].
  split; [| split; [reflexivity |]].
  - f_equal. destruct conts as [| c rest]; [cbn; lra |].
    cbn [map]. rewrite !last_cons_shift.
    rewrite <- (map_map snd (fun t => t - t0)).
    exact (last_map_default (fun t => t - t0) (map snd rest) (snd c)).
  - unfold get_total_phone_hold_duration. reflexivity.
Qed.

(** Backward clock included: a hold first seen at time 10, last seen at
    time 4 and released at time 20 lowers the accumulated duration by 6. *)
Lemma hold_segment_adds_first_to_last_held_witness :
  exists self',
    run_timer init_analyzer
      (([classified_phone true], 10)
         :: [([classified_phone true], 4)] ++ [([classified_phone false], 20)])
      = Ok self'
    /\ phone_hold_duration self'
       = phone_hold_duration init_analyzer
         + (last (map snd [([classified_phone true], 4)]) 10 - 10)
    /\ is_phone_being_held self' = false
    /\ get_total_phone_hold_duration self' = phone_hold_duration self'.
Proof.
  apply (hold_segment_adds_first_to_last_held init_analyzer
           [classified_phone true] 10 [([classified_phone true], 4)]
           [classified_phone false] 20); reflexivity.
Defined.

Lemma get_total_held (self : Analyzer) (start : R) :
  is_phone_being_held self = true ->
  phone_hold_start_time self = Some start -> start <> 0 ->
  get_total_phone_hold_duration self
  = phone_hold_duration self + current_phone_timer self.
Proof.
  intros Hheld Hstart Hnz. unfold get_total_phone_hold_duration.
  rewrite Hheld, Hstart. cbn [opt_float_truthy andb].
  now rewrite float_truthy_true.
Qed.

Lemma get_total_idle (self : Analyzer) :
  is_phone_being_held self = false ->
  get_total_phone_hold_duration self = phone_hold_duration self.
Proof.
  intro Hidle. unfold get_total_phone_hold_duration. now rewrite Hidle.
Qed.

Lemma timer_tight_init (now : R) : timer_tight now init_analyzer.
Proof.
  intro H. discriminate H.
Qed.

Lemma update_phone_timer_tight (now t fps : R) (self : Analyzer)
    (phones : list Device) :
  timer_tight now self -> now <= t -> 0 < t ->
  exists self',
    update_phone_timer self phones fps t = Ok self'
    /\ timer_tight t self'
    /\ get_total_phone_hold_duration self <= get_total_phone_hold_duration self'
    /\ (any_held phones = false ->
        get_total_phone_hold_duration self' = get_total_phone_hold_duration self).
Proof.
  intros Hok Hle Hpos.
  destruct (any_held phones) eqn:Hp; destruct (is_phone_being_held self) eqn:Hs.
  - destruct (Hok Hs) as (start & Hstart & Hnz & Hsle & Htl & Htu).
    eexists. split; [now apply timer_continue with (start := start) |].
    split; [| split; [| discriminate]].
    + intros _. exists start. cbn. repeat split; try assumption; lra.
    + rewrite (get_total_held self start Hs Hstart Hnz).
      erewrite get_total_held; [| reflexivity | reflexivity | exact Hnz].
      cbn. lra.
  - eexists. split; [now apply timer_begin |].
    split; [| split; [| discriminate]].
    + intros _. exists t. cbn. repeat split; lra.
    + rewrite (get_total_idle self Hs).
      erewrite get_total_held; [| reflexivity | reflexivity | lra].
      cbn. lra.
  - destruct (Hok Hs) as (start & Hstart & Hnz & Hsle & Htl & Htu).
    eexists. split; [now apply timer_release |].
    rewrite (get_total_held self start Hs Hstart Hnz).
    rewrite get_total_idle by reflexivity.
    cbn. repeat split; try lra. intro H. discriminate H.
  - exists self. split; [now apply timer_idle |].
    repeat split; try lra. intro H. congruence.
Qed.

Lemma run_timer_tight (calls : list (list Device * R)) :
  forall (now : R) (self : Analyzer),
    timer_tight now self ->
    nondecreasing (now :: map snd calls) ->
    Forall (fun call => 0 < snd call) calls ->
    exists self',
      run_timer self calls = Ok self'
      /\ timer_tight (last (map snd calls) now) self'
      /\ get_total_phone_hold_duration self <= get_total_phone_hold_duration self'.
Proof.
  induction calls as [| [phones t] rest IH]; intros now self Hok Hnd Hpos.
  - exists self. repeat split; [exact Hok | lra].
  - cbn [map snd] in Hnd. destruct Hnd as [Hle Hnd].
    inversion Hpos as [| c l Ht Hrest]; subst. cbn [snd] in Ht.
    destruct (update_phone_timer_tight now t 30 self phones Hok Hle Ht)
      as (self1 & Hstep & Hok1 & Hmono & _).
    destruct (IH t self1 Hok1 Hnd Hrest) as (self' & Hrun & Hok' & Hmono').
    exists self'. cbn [run_timer]. rewrite Hstep. cbn [bind].
    repeat split; [exact Hrun | | lra].
    cbn [map snd]. now rewrite last_cons_shift.
Qed.

(** With a clock that is positive and never goes backward, the total hold
    time read by [get_total_phone_hold_duration] never decreases from one
    call of the timer to the next, and a call with nothing held, a release
    included, leaves it as it was. *)
Theorem total_hold_time_never_decreases
    (before after : list (list Device * R)) (phones : list Device) (t fps : R) :
  nondecreasing (map snd (before ++ (phones, t) :: after)) ->
  Forall (fun call => 0 < snd call) (before ++ (phones, t) :: after) ->
  exists self self',
    run_timer init_analyzer before = Ok self
    /\ update_phone_timer self phones fps t = Ok self'
    /\ 0 <= get_total_phone_hold_duration self
    /\ get_total_phone_hold_duration self <= get_total_phone_hold_duration self'
    /\ (any_held phones = false ->
        get_total_phone_hold_duration self' = get_total_phone_hold_duration self).
Proof.
  intros Hnd Hpos. rewrite map_app in Hnd. cbn [map snd] in Hnd.
  apply Forall_app in Hpos as [Hpos_before Hpos_rest].
  inversion Hpos_rest as [| c l Ht _]; subst. cbn [snd] in Ht.
  set (now := hd t (map snd before)).
  assert (Hnd0 : nondecreasing (now :: map snd before)).
  { apply nondecreasing_app_left in Hnd. subst now.
    destruct (map snd before) as [| t0 ts]; [exact I |].
    cbn [hd]. split; [lra | exact Hnd]. }
  destruct (run_timer_tight before now init_analyzer (timer_tight_init now)
              Hnd0 Hpos_before)
    as (self & Hrun & Hok & Hmono).
  assert (Hle : last (map snd before) now <= t).
  { destruct (map snd before) as [| t0 ts] eqn:Hm.
    - subst now. cbn. lra.
    - apply nondecreasing_app_last with (us := map snd after);
        [exact Hnd | discriminate]. }
  destruct (update_phone_timer_tight _ t fps self phones Hok Hle Ht)
    as (self' & Hstep & _ & Hmono' & Hsame).
  exists self, self'.
  rewrite (get_total_idle init_analyzer eq_refl) in Hmono.
  cbn [phone_hold_duration init_analyzer] in Hmono.
  repeat split; assumption.
Qed.

Lemma total_hold_time_never_decreases_witness :
  exists self self',
    run_timer init_analyzer
      [([classified_phone true], 1); ([classified_phone true], 3)] = Ok self
    /\ update_phone_timer self [classified_phone false] 30 4 = Ok self'
    /\ 0 <= get_total_phone_hold_duration self
    /\ get_total_phone_hold_duration self <= get_total_phone_hold_duration self'
    /\ (any_held [classified_phone false] = false ->
        get_total_phone_hold_duration self' = get_total_phone_hold_duration self).
Proof.
  apply (total_hold_time_never_decreases
           [([classified_phone true], 1); ([classified_phone true], 3)] []
           [classified_phone false] 4 30).
  - cbn. repeat split; lra.
  - repeat constructor; cbn; lra.
Defined.

(** The timer and the histories are separate parts of the state: a timer
    call and a tracking call give the same state in either order. *)
Theorem timer_and_tracking_commute (cfg : Config) (self : Analyzer)
    (timer_phones tracked_phones : list Device) (fps t : R) (idx : Z) :
  (self' <- update_phone_timer self timer_phones fps t ;;
   Ok (update_tracking cfg self' tracked_phones idx))
  = update_phone_timer (update_tracking cfg self tracked_phones idx)
      timer_phones fps t.
Proof.
  destruct self as [positions history start total timer held].
  unfold update_phone_timer, update_tracking.
  cbn [is_phone_being_held phone_hold_start_time phone_hold_duration
       current_phone_timer phone_positions active_usage_history].
  destruct (any_held timer_phones), held; cbn [negb bind]; try reflexivity.
  destruct start; reflexivity.
Qed.

(** ** Temporal filter, continued *)

(** On any device list, with or without flags, the filter returns, keeps the
    devices and their detection fields, and leaves every device's held
    reading as it was: it can neither hold nor release a device. *)
Theorem filter_preserves_held_readings (cfg : Config) (self : Analyzer)
    (phones : list Device) :
  exists out,
    apply_temporal_filtering cfg self phones = Ok out
    /\ map get_is_being_held out = map get_is_being_held phones
    /\ map bbox out = map bbox phones
    /\ map confidence out = map confidence phones
    /\ map center out = map center phones
    /\ map class_id out = map class_id phones.
Proof.
  destruct (filter_returns cfg self phones) as [H | [Hnone H]].
  - exists phones. now repeat split.
  - eexists. split; [exact H |]. rewrite !map_map. cbn.
    repeat split. clear H. unfold any_held in Hnone.
    induction phones as [| d rest IH]; [reflexivity |].
    cbn [existsb] in Hnone. apply orb_false_iff in Hnone as [Hd Hrest].
    cbn [map]. now rewrite Hd, (IH Hrest).
Qed.

(** ** Usage statistics, continued *)

Lemma count_true_bound (bs : list bool) :
  (count_occ Bool.bool_dec bs true <= length bs)%nat.
Proof.
  induction bs as [| b bs IH]; [cbn; lia |].
  cbn [count_occ length]. destruct (Bool.bool_dec b true); lia.
Qed.

(** The statistics are always in range: the active count is between zero and
    the frame count, and the percentage between 0 and 100. *)
Theorem usage_statistics_in_range (self : Analyzer) :
  exists stats,
    get_usage_statistics self = Ok stats
    /\ (0 <= active_frames stats <= total_frames stats)%Z
    /\ 0 <= usage_percentage stats <= 100.
Proof.
  unfold get_usage_statistics.
  destruct (active_usage_history self) as [| b bs] eqn:Hh.
  - eexists. split; [reflexivity |]. cbn. split; [lia | lra].
  - unfold py_truediv.
    destruct (Z.eqb_spec (Z.of_nat (length (b :: bs))) 0) as [Hz | Hz];
      [cbn [length] in Hz; lia |].
    cbn [bind]. eexists. split; [reflexivity |].
    cbn [total_frames active_frames usage_percentage].
    rewrite sum_bools_count.
    pose proof (count_true_bound (b :: bs)) as Hbound.
    split; [lia |].
    assert (Ht : 0 < IZR (Z.of_nat (length (b :: bs)))).
    { apply IZR_lt. cbn [length]. lia. }
    assert (Ha : 0 <= IZR (Z.of_nat (count_occ Bool.bool_dec (b :: bs) true))).
    { apply IZR_le. lia. }
    assert (Hle : IZR (Z.of_nat (count_occ Bool.bool_dec (b :: bs) true))
                  <= IZR (Z.of_nat (length (b :: bs)))).
    { apply IZR_le. lia. }
    split.
    + apply Rmult_le_pos; [| lra].
      apply Rmult_le_pos; [exact Ha |].
      left. now apply Rinv_0_lt_compat.
    + apply Rmult_le_reg_r with (r := IZR (Z.of_nat (length (b :: bs))));
        [exact Ht |].
      replace (IZR (Z.of_nat (count_occ Bool.bool_dec (b :: bs) true))
               / IZR (Z.of_nat (length (b :: bs))) * 100
               * IZR (Z.of_nat (length (b :: bs))))
        with (IZR (Z.of_nat (count_occ Bool.bool_dec (b :: bs) true)) * 100)
        by (field; lra).
      lra.
Qed.

(** The statistics are taken from the bounded activity history, so after a
    run of tracked frames they cover only the most recent [max_history] of
    them: the frame count reported is the smaller of the window and the number
    of frames processed. *)
Theorem statistics_cover_recent_window (cfg : Config)
    (frames : list (list Device)) (idx : Z) :
  (0 < max_history cfg)%nat ->
  exists stats,
    get_usage_statistics (run_tracking cfg init_analyzer frames idx) = Ok stats
    /\ total_frames stats
       = Z.of_nat (Nat.min (max_history cfg) (length frames))
    /\ active_frames stats
       = Z.of_nat (count_occ Bool.bool_dec
                     (most_recent (max_history cfg) (map any_held frames)) true).
Proof.
  intro Hpos.
  destruct (run_tracking_histories cfg frames Hpos init_analyzer idx) as [_ Ea];
    [cbn; lia | cbn; lia |].
  cbn [init_analyzer active_usage_history app] in Ea.
  unfold get_usage_statistics. rewrite Ea.
  destruct (most_recent (max_history cfg) (map any_held frames)) as [| b bs] eqn:Hm.
  - eexists. split; [reflexivity |]. cbn [total_frames active_frames count_occ].
    apply (f_equal (@length bool)) in Hm.
    rewrite most_recent_length, length_map in Hm. cbn [length] in Hm.
    split; [now rewrite Hm | reflexivity].
  - unfold py_truediv.
    destruct (Z.eqb_spec (Z.of_nat (length (b :: bs))) 0) as [Hz | Hz];
      [cbn [length] in Hz; lia |].
    cbn [bind]. eexists. split; [reflexivity |].
    cbn [total_frames active_frames].
    split; [| apply sum_bools_count].
    rewrite <- Hm, most_recent_length, length_map. reflexivity.
Qed.

Lemma statistics_cover_recent_window_witness :
  exists stats,
    get_usage_statistics
      (run_tracking default_config init_analyzer
         (repeat [classified_phone true] 25) 0) = Ok stats
    /\ total_frames stats
       = Z.of_nat (Nat.min (max_history default_config)
                     (length (repeat [classified_phone true] 25)))
    /\ active_frames stats
       = Z.of_nat (count_occ Bool.bool_dec
                     (most_recent (max_history default_config)
                        (map any_held (repeat [classified_phone true] 25))) true).
Proof.
  apply (statistics_cover_recent_window default_config
           (repeat [classified_phone true] 25) 0).
  unfold max_history. cbn [default_config MIN_MOTION_FRAMES MAX_INACTIVE_FRAMES].
  lia.
Defined.

(** ** Motion detection *)

Lemma slice_last_length {A : Type} (n : nat) (l : list A) :
  (1 <= n <= length l)%nat -> length (slice_last n l) = n.
Proof.
  intros [Hn Hl]. unfold slice_last. destruct n as [| n]; [lia |].
  rewrite length_skipn. lia.
Qed.

Lemma movement_loop_bound (bound : R) (rest : list (option Point)) :
  0 <= bound ->
  forall (previous : option Point) (total : R),
    steps_within bound previous rest ->
    movement_loop previous rest total <= total + bound * INR (length rest).
Proof.
  intro Hb. induction rest as [| current rest IH]; intros previous total Hsteps.
  - cbn. lra.
  - cbn [steps_within] in Hsteps. destruct Hsteps as [Hstep Hrest].
    cbn [movement_loop length]. rewrite S_INR.
    pose proof (IH current) as IHc.
    destruct current as [c |], previous as [p |];
      match goal with
      | |- movement_loop _ _ ?acc <= _ => specialize (IHc acc Hrest)
      end; lra.
Qed.

(** With a window of at least two positions [detect_motion] never divides by
    zero, and it answers [False] while the history is shorter than the
    window. *)
Theorem detect_motion_returns (cfg : Config) (positions : list (option Point))
    (idx : Z) :
  (2 <= MIN_MOTION_FRAMES cfg)%nat ->
  exists moving,
    detect_motion cfg positions idx = Ok moving
    /\ ((length positions < MIN_MOTION_FRAMES cfg)%nat -> moving = false).
Proof.
  intro Hmin. unfold detect_motion.
  destruct (Nat.ltb_spec (length positions) (MIN_MOTION_FRAMES cfg)) as [Hs | Hl].
  - exists false. now split.
  - rewrite slice_last_length by lia. unfold py_truediv_float.
    destruct (Z.eqb_spec (Z.of_nat (MIN_MOTION_FRAMES cfg) - 1) 0) as [Hz | Hz];
      [lia |].
    cbn [bind]. eexists. split; [reflexivity | lia].
Qed.

Lemma detect_motion_returns_witness :
  exists moving,
    detect_motion default_config [None; None] 7 = Ok moving
    /\ ((length [@None Point; None] < MIN_MOTION_FRAMES default_config)%nat ->
        moving = false).
Proof.
  apply (detect_motion_returns default_config [None; None] 7).
  cbn. lia.
Defined.

(** With a window of one position and a non-empty history [detect_motion]
    divides by zero. *)
Theorem detect_motion_window_of_one_raises (cfg : Config)
    (positions : list (option Point)) (idx : Z) :
  MIN_MOTION_FRAMES cfg = 1%nat -> positions <> [] ->
  detect_motion cfg positions idx = Raise ZeroDivisionError.
Proof.
  intros Hmin Hne. unfold detect_motion. rewrite Hmin.
  destruct (Nat.ltb_spec (length positions) 1) as [Hs | Hl].
  - destruct positions; [congruence | cbn [length] in Hs; lia].
  - rewrite slice_last_length by lia. reflexivity.
Qed.

Lemma detect_motion_window_of_one_raises_witness :
  detect_motion
    {| PHONE_HAND_DISTANCE_THRESHOLD := 200;
       MIN_MOTION_FRAMES := 1;
       MAX_INACTIVE_FRAMES := 10 |}
    [Some (100, 100)] 0
  = Raise ZeroDivisionError.
Proof.
  apply (detect_motion_window_of_one_raises
           {| PHONE_HAND_DISTANCE_THRESHOLD := 200;
              MIN_MOTION_FRAMES := 1;
              MAX_INACTIVE_FRAMES := 10 |}
           [Some (100, 100)] 0);
    [reflexivity | discriminate].
Defined.

(** [detect_motion] never reports motion unless two consecutive detected
    positions of its window are more than [MOTION_THRESHOLD] apart: when every
    measured step is within the threshold (a phone at rest, or not detected
    at all) the answer is [False]. *)
Theorem detect_motion_needs_a_long_step (cfg : Config)
    (positions : list (option Point)) (idx : Z) :
  (2 <= MIN_MOTION_FRAMES cfg)%nat ->
  (forall first rest,
      slice_last (MIN_MOTION_FRAMES cfg) positions = first :: rest ->
      steps_within (IZR MOTION_THRESHOLD) first rest) ->
  detect_motion cfg positions idx = Ok false.
Proof.
  intros Hmin Hsteps. unfold detect_motion.
  destruct (Nat.ltb_spec (length positions) (MIN_MOTION_FRAMES cfg)) as [Hs | Hl];
    [reflexivity |].
  pose proof (slice_last_length (MIN_MOTION_FRAMES cfg) positions ltac:(lia))
    as Hlen.
  destruct (slice_last (MIN_MOTION_FRAMES cfg) positions) as [| first rest] eqn:Hw;
    [cbn [length] in Hlen; lia |].
  specialize (Hsteps first rest eq_refl).
  unfold py_truediv_float.
  destruct (Z.eqb_spec (Z.of_nat (length (first :: rest)) - 1) 0) as [Hz | Hz];
    [cbn [length] in Hz, Hlen; lia |].
  cbn [bind]. f_equal.
  destruct (Rlt_dec _ _) as [Hlt | _]; [| reflexivity].
  exfalso.
  assert (Hthr : 0 <= IZR MOTION_THRESHOLD) by (unfold MOTION_THRESHOLD; lra).
  pose proof (movement_loop_bound _ rest Hthr first 0 Hsteps) as Hbound.
  assert (Hdiv : IZR (Z.of_nat (length (first :: rest)) - 1) = INR (length rest)).
  { rewrite INR_IZR_INZ. f_equal. cbn [length]. lia. }
  rewrite Hdiv in Hlt.
  assert (Hpos : 0 < INR (length rest)).
  { apply lt_0_INR. cbn [length] in Hlen. lia. }
  apply Rmult_lt_compat_r with (r := INR (length rest)) in Hlt; [| exact Hpos].
  replace (movement_loop first rest 0 / INR (length rest) * INR (length rest))
    with (movement_loop first rest 0) in Hlt by (field; lra).
  lra.
Qed.

Lemma detect_motion_needs_a_long_step_witness :
  detect_motion default_config [None; None; None; None] 3 = Ok false.
Proof.
  apply (detect_motion_needs_a_long_step default_config [None; None; None; None] 3).
  - cbn. lia.
  - intros first rest Hw. cbn in Hw. injection Hw as <- <-. cbn. tauto.
Defined.

(** ** Session extractor, continued *)

Lemma py_last_cons {A : Type} (l : list A) (x : A) :
  py_last (x :: l) = Ok (last l x).
Proof.
  revert x. induction l as [| y l IH]; intro x; [reflexivity |].
  change (py_last (x :: y :: l)) with (py_last (y :: l)).
  rewrite IH. now rewrite <- (last_cons_shift l y x).
Qed.

Lemma py_last_app_cons {A : Type} (l r : list A) (x : A) :
  py_last (l ++ x :: r) = py_last (x :: r).
Proof.
  induction l as [| y l IH]; [reflexivity |].
  cbn [app]. rewrite <- IH.
  destruct (l ++ x :: r) eqn:E; [now destruct l | reflexivity].
Qed.

(** The scan never fails: a session can only be open after at least one
    frame, so the last frame it is closed with exists. *)
Lemma find_usage_sessions_returns (data : list FrameData) :
  exists sessions, find_usage_sessions data = Ok sessions.
Proof.
  unfold find_usage_sessions.
  destruct (fold_left session_step data ([], None)) as [ss [cur |]] eqn:Hscan;
    [| now eexists].
  destruct data as [| f rest]; [discriminate Hscan |].
  rewrite py_last_cons. cbn [bind]. now eexists.
Qed.

(** The sessions already closed are a prefix of the scan's result. *)
Lemma scan_accumulates (data : list FrameData) :
  forall (ss : list Session) (cur : option OpenSession),
    fold_left session_step data (ss, cur)
    = (ss ++ fst (fold_left session_step data ([], cur)),
       snd (fold_left session_step data ([], cur))).
Proof.
  induction data as [| f rest IH]; intros ss cur.
  - cbn. now rewrite app_nil_r.
  - cbn [fold_left]. unfold session_step at 2 4 6.
    destruct (active_phone_usage f), cur as [o |].
    + apply IH.
    + apply IH.
    + rewrite (IH (ss ++ [close_session o f]) None).
      rewrite (IH ([] ++ [close_session o f]) None).
      cbn [app fst snd]. now rewrite <- app_assoc.
    + apply IH.
Qed.

Lemma scan_count (data : list FrameData) :
  forall (ss : list Session) (cur : option OpenSession),
    (length (fst (fold_left session_step data (ss, cur)))
     + match snd (fold_left session_step data (ss, cur)) with
       | Some _ => 1
       | None => 0
       end
     = length ss
       + match cur with Some _ => 1 | None => 0 end
       + rising_edges (match cur with Some _ => true | None => false end)
           (map active_phone_usage data))%nat.
Proof.
  induction data as [| f rest IH]; intros ss cur.
  - cbn. lia.
  - cbn [fold_left map rising_edges]. unfold session_step at 2 4.
    destruct (active_phone_usage f), cur as [o |]; rewrite IH; cbn;
      rewrite ?length_app; cbn; lia.
Qed.

(** The summary of a non-empty video always exists, and it has one session
    for every change from inactive to active in the frame sequence (the first
    frame counting as a change when it is active); a video that is never
    active has none. *)
Theorem session_count_is_rising_edges (an : Analyzer) (f : FrameData)
    (rest : list FrameData) :
  exists summary,
    get_usage_summary {| analyzer := an; usage_data := f :: rest |}
      = Ok (Some summary)
    /\ length (usage_sessions summary)
       = rising_edges false (map active_phone_usage (f :: rest))
    /\ (forallb (fun frame => negb (active_phone_usage frame)) (f :: rest) = true ->
        usage_sessions summary = [] /\ total_usage_time summary = 0).
Proof.
  destruct (find_usage_sessions_returns (f :: rest)) as [sessions Hscan].
  destruct (get_usage_summary_sessions an (f :: rest) sessions
              ltac:(discriminate) Hscan)
    as (summary & Hsum & Hsessions & Htotal).
  assert (Hcount : length sessions
                   = rising_edges false (map active_phone_usage (f :: rest))).
  { pose proof (scan_count (f :: rest) [] None) as Hc.
    unfold find_usage_sessions in Hscan.
    destruct (fold_left session_step (f :: rest) ([], None)) as [ss [cur |]].
    - rewrite py_last_cons in Hscan. cbn [bind] in Hscan.
      injection Hscan as <-. rewrite length_app. cbn [fst snd length] in *. lia.
    - injection Hscan as <-. cbn [fst snd length] in *. lia. }
  exists summary. split; [exact Hsum |]. rewrite Hsessions.
  split; [exact Hcount |].
  intro Hnever.
  assert (Hzero : rising_edges false (map active_phone_usage (f :: rest)) = 0%nat).
  { clear -Hnever. induction (f :: rest) as [| g l IH]; [reflexivity |].
    cbn [forallb] in Hnever. apply andb_true_iff in Hnever as [Hg Hl].
    cbn [map rising_edges]. destruct (active_phone_usage g); [discriminate |].
    cbn. now apply IH. }
  rewrite Hzero in Hcount. destruct sessions; [| discriminate].
  split; [reflexivity |]. rewrite Htotal. reflexivity.
Qed.

(** A video can be cut after any inactive frame: the sessions of the whole
    are the sessions of the part up to that frame followed by the sessions of
    the rest. *)
Theorem sessions_split_after_inactive_frame (an : Analyzer)
    (before : list FrameData) (g : FrameData) (f : FrameData)
    (rest : list FrameData) :
  active_phone_usage g = false ->
  exists whole first_part second_part,
    get_usage_summary
      {| analyzer := an; usage_data := (before ++ [g]) ++ f :: rest |}
      = Ok (Some whole)
    /\ get_usage_summary {| analyzer := an; usage_data := before ++ [g] |}
       = Ok (Some first_part)
    /\ get_usage_summary {| analyzer := an; usage_data := f :: rest |}
       = Ok (Some second_part)
    /\ usage_sessions whole
       = usage_sessions first_part ++ usage_sessions second_part.
Proof.
  intro Hg.
  assert (Hclosed : snd (fold_left session_step (before ++ [g]) ([], None)) = None).
  { apply scan_closed_prefix. right. now exists before, g. }
  destruct (fold_left session_step (before ++ [g]) ([], None)) as [ss1 cur1] eqn:H1.
  cbn [snd] in Hclosed. subst cur1.
  assert (Hfirst : find_usage_sessions (before ++ [g]) = Ok ss1).
  { unfold find_usage_sessions. now rewrite H1. }
  destruct (find_usage_sessions_returns (f :: rest)) as [ss2 Hsecond].
  assert (Hwhole : find_usage_sessions ((before ++ [g]) ++ f :: rest)
                   = Ok (ss1 ++ ss2)).
  { unfold find_usage_sessions in Hsecond |- *.
    rewrite fold_left_app, H1, scan_accumulates.
    destruct (fold_left session_step (f :: rest) ([], None)) as [ss [cur |]].
    - cbn [fst snd]. rewrite py_last_cons in Hsecond. cbn [bind] in Hsecond.
      injection Hsecond as <-.
      rewrite py_last_app_cons, py_last_cons. cbn [bind].
      now rewrite app_assoc.
    - cbn [fst snd]. injection Hsecond as <-. reflexivity. }
  assert (Hne1 : (before ++ [g]) ++ f :: rest <> [])
    by (destruct before; discriminate).
  assert (Hne2 : before ++ [g] <> []) by (destruct before; discriminate).
  assert (Hne3 : f :: rest <> []) by discriminate.
  destruct (get_usage_summary_sessions an _ _ Hne1 Hwhole)
    as (whole & Hw & Hws & _).
  destruct (get_usage_summary_sessions an _ _ Hne2 Hfirst)
    as (first_part & Hf & Hfs & _).
  destruct (get_usage_summary_sessions an _ _ Hne3 Hsecond)
    as (second_part & Hs & Hss & _).
  exists whole, first_part, second_part.
  repeat split; try assumption. now rewrite Hws, Hfs, Hss.
Qed.

Lemma sessions_split_after_inactive_frame_witness :
  exists whole first_part second_part,
    get_usage_summary
      {| analyzer := init_analyzer;
         usage_data := (frames_of_activity 30 0 [true] ++ frames_of_activity 30 1 [false])
                       ++ frames_of_activity 30 2 [true; true] |}
      = Ok (Some whole)
    /\ get_usage_summary
         {| analyzer := init_analyzer;
            usage_data := frames_of_activity 30 0 [true]
                          ++ frames_of_activity 30 1 [false] |}
       = Ok (Some first_part)
    /\ get_usage_summary
         {| analyzer := init_analyzer;
            usage_data := frames_of_activity 30 2 [true; true] |}
       = Ok (Some second_part)
    /\ usage_sessions whole
       = usage_sessions first_part ++ usage_sessions second_part.
Proof.
  apply (sessions_split_after_inactive_frame init_analyzer
           (frames_of_activity 30 0 [true])
           {| frame_idx := 1;
              timestamp := IZR 1 / 30;
              phones_detected := 0;
              tap_to_pay_detected := 0;
              hands_detected := 0;
              active_phone_usage := false;
              tap_to_pay_usage := false |}
           {| frame_idx := 2;
              timestamp := IZR 2 / 30;
              phones_detected := 0;
              tap_to_pay_detected := 0;
              hands_detected := 0;
              active_phone_usage := true;
              tap_to_pay_usage := false |}
           (frames_of_activity 30 (2 + 1) [true])).
  reflexivity.
Defined.

Lemma chronological_snoc (ss : list Session) :
  forall (lo : R) (s : Session),
    chronological lo ss ->
    last (map end_time ss) lo <= start_time s ->
    start_time s <= end_time s ->
    duration s = end_time s - start_time s ->
    chronological lo (ss ++ [s]).
Proof.
  induction ss as [| s0 ss IH]; intros lo s Hc Hlast Hse Hd.
  - cbn in *. repeat split; assumption.
  - cbn [chronological app] in *. destruct Hc as (H1 & H2 & H3 & Hrest).
    repeat split; try assumption.
    apply IH; try assumption.
    cbn [map] in Hlast. now rewrite last_cons_shift in Hlast.
Qed.

Lemma chronological_sum (ss : list Session) :
  forall (lo acc : R),
    chronological lo ss ->
    lo <= last (map end_time ss) lo
    /\ acc <= fold_left (fun a s => a + duration s) ss acc
           <= acc + (last (map end_time ss) lo - lo).
Proof.
  induction ss as [| s ss IH]; intros lo acc Hc.
  - cbn. lra.
  - cbn [chronological] in Hc. destruct Hc as (H1 & H2 & H3 & Hrest).
    cbn [fold_left map]. rewrite last_cons_shift.
    destruct (IH (end_time s) (acc + duration s) Hrest) as (Hle & Hlow & Hup).
    lra.
Qed.

Lemma scan_chronological (data : list FrameData) :
  forall (lo now : R) (ss : list Session) (cur : option OpenSession),
    chronological lo ss ->
    last (map end_time ss) lo <= now ->
    (forall o, cur = Some o ->
               last (map end_time ss) lo <= open_start_time o <= now) ->
    nondecreasing (now :: map timestamp data) ->
    chronological lo (fst (fold_left session_step data (ss, cur)))
    /\ last (map end_time (fst (fold_left session_step data (ss, cur)))) lo
       <= last (map timestamp data) now
    /\ (forall o, snd (fold_left session_step data (ss, cur)) = Some o ->
          last (map end_time (fst (fold_left session_step data (ss, cur)))) lo
            <= open_start_time o
          /\ open_start_time o <= last (map timestamp data) now).
Proof.
  induction data as [| f rest IH]; intros lo now ss cur Hc Hlast Hcur Hnd.
  - cbn [fold_left fst snd map last]. repeat split; try assumption;
      now apply Hcur.
  - cbn [map] in Hnd. destruct Hnd as [Hle Hnd].
    cbn [fold_left map]. rewrite last_cons_shift.
    destruct (active_phone_usage f) eqn:Ha; destruct cur as [o |].
    + replace (session_step (ss, Some o) f) with (ss, Some o)
        by (unfold session_step; now rewrite Ha).
      apply IH; try assumption; [lra |].
      intros o' Ho'. injection Ho' as <-.
      destruct (Hcur o eq_refl). lra.
    + replace (session_step (ss, None) f)
        with (ss, Some {| open_start_time := timestamp f;
                          open_start_frame := frame_idx f |})
        by (unfold session_step; now rewrite Ha).
      apply IH; try assumption; [lra |].
      intros o' Ho'. injection Ho' as <-. cbn. lra.
    + replace (session_step (ss, Some o) f)
        with (ss ++ [close_session o f], @None OpenSession)
        by (unfold session_step; now rewrite Ha).
      destruct (Hcur o eq_refl) as [Hlo Hhi].
      apply IH; try assumption.
      * apply chronological_snoc; try assumption; cbn; lra.
      * rewrite map_app. cbn [map]. rewrite last_last. cbn. lra.
      * intros o' Ho'. discriminate Ho'.
    + replace (session_step (ss, None) f) with (ss, @None OpenSession)
        by (unfold session_step; now rewrite Ha).
      apply IH; try assumption; [lra |].
      intros o' Ho'. discriminate Ho'.
Qed.

Lemma sessions_in_time_order (an : Analyzer) (f : FrameData)
    (rest : list FrameData) :
  nondecreasing (map timestamp (f :: rest)) ->
  exists summary,
    get_usage_summary {| analyzer := an; usage_data := f :: rest |}
      = Ok (Some summary)
    /\ chronological (timestamp f) (usage_sessions summary)
    /\ 0 <= total_usage_time summary <= timestamp (last rest f) - timestamp f.
Proof.
  intro Hnd.
  assert (Hnd0 : nondecreasing (timestamp f :: map timestamp (f :: rest))).
  { cbn [map]. split; [lra | exact Hnd]. }
  pose proof (scan_chronological (f :: rest) (timestamp f) (timestamp f) [] None
                I ltac:(cbn; lra) ltac:(intros o Ho; discriminate Ho) Hnd0)
    as (Hc & Hlast & Hopen).
  assert (Hts : last (map timestamp (f :: rest)) (timestamp f)
                = timestamp (last rest f)).
  { cbn [map]. rewrite last_cons_shift. apply last_map_default. }
  rewrite Hts in Hlast, Hopen.
  assert (Hscan : exists sessions,
             find_usage_sessions (f :: rest) = Ok sessions
             /\ chronological (timestamp f) sessions
             /\ last (map end_time sessions) (timestamp f)
                <= timestamp (last rest f)).
  { unfold find_usage_sessions.
    destruct (fold_left session_step (f :: rest) ([], None)) as [ss [o |]].
    - cbn [fst snd] in *. destruct (Hopen o eq_refl) as [Hlo Hhi].
      rewrite py_last_cons. cbn [bind]. eexists. split; [reflexivity |].
      split.
      + apply chronological_snoc; try assumption; cbn; lra.
      + rewrite map_app. cbn [map]. rewrite last_last. cbn. lra.
    - cbn [fst snd] in *. eexists. split; [reflexivity |]. now split. }
  destruct Hscan as (sessions & Hscan & Hchrono & Hend).
  destruct (get_usage_summary_sessions an (f :: rest) sessions
              ltac:(discriminate) Hscan)
    as (summary & Hsum & Hsessions & Htotal).
  exists summary. split; [exact Hsum |]. rewrite Hsessions, Htotal.
  split; [exact Hchrono |].
  unfold sum_durations.
  destruct (chronological_sum sessions (timestamp f) 0 Hchrono)
    as (Hle & Hlow & Hup).
  lra.
Qed.

(** When the frame timestamps never go backward the sessions of the summary
    are in time order and do not overlap, each ends no earlier than it starts
    and has the difference as its duration, and the total usage time lies
    between zero and the time from the first frame to the last. *)
Theorem sessions_chronological (an : Analyzer) (f : FrameData)
    (rest : list FrameData) :
  nondecreasing (map timestamp (f :: rest)) ->
  exists summary,
    get_usage_summary {| analyzer := an; usage_data := f :: rest |}
      = Ok (Some summary)
    /\ chronological (timestamp f) (usage_sessions summary)
    /\ 0 <= total_usage_time summary <= timestamp (last rest f) - timestamp f.
Proof.
  apply sessions_in_time_order.
Qed.

Lemma sessions_chronological_witness :
  exists summary,
    get_usage_summary
      {| analyzer := init_analyzer;
         usage_data :=
           {| frame_idx := 0;
              timestamp := 0;
              phones_detected := 0;
              tap_to_pay_detected := 0;
              hands_detected := 0;
              active_phone_usage := true;
              tap_to_pay_usage := false |}
           :: [ {| frame_idx := 1;
                   timestamp := 1;
                   phones_detected := 0;
                   tap_to_pay_detected := 0;
                   hands_detected := 0;
                   active_phone_usage := false;
                   tap_to_pay_usage := false |} ] |}
      = Ok (Some summary)
    /\ chronological 0 (usage_sessions summary)
    /\ 0 <= total_usage_time summary <= 1 - 0.
Proof.
  apply (sessions_chronological init_analyzer
           {| frame_idx := 0;
              timestamp := 0;
              phones_detected := 0;
              tap_to_pay_detected := 0;
              hands_detected := 0;
              active_phone_usage := true;
              tap_to_pay_usage := false |}
           [ {| frame_idx := 1;
                timestamp := 1;
                phones_detected := 0;
                tap_to_pay_detected := 0;
                hands_detected := 0;
                active_phone_usage := false;
                tap_to_pay_usage := false |} ]).
  cbn. lra.
Defined.

(** ** Report *)

(** [save_report] divides by the number of frames without a guard: on a video
    with no frame it raises where [get_usage_summary] returns [None].  On any
    other video it returns, and its frame count, active count and percentage
    are those of the summary. *)
Theorem report_agrees_with_summary (an : Analyzer)
    (video_path output_path now_isoformat : String.string) :
  save_report [] video_path output_path now_isoformat = Raise ZeroDivisionError
  /\ get_usage_summary {| analyzer := an; usage_data := [] |} = Ok None
  /\ forall (f : FrameData) (rest : list FrameData),
       exists report summary,
         save_report (f :: rest) video_path output_path now_isoformat = Ok report
         /\ get_usage_summary {| analyzer := an; usage_data := f :: rest |}
            = Ok (Some summary)
         /\ report_total_frames report = summary_total_frames summary
         /\ report_active_phone_usage_frames report = summary_active_frames summary
         /\ report_phone_usage_percentage report = summary_usage_percentage summary
         /\ report_frame_details report = f :: rest.
Proof.
  split; [reflexivity |]. split; [reflexivity |].
  intros f rest.
  destruct (find_usage_sessions_returns (f :: rest)) as [sessions Hscan].
  unfold save_report, get_usage_summary. cbn [usage_data analyzer].
  unfold py_truediv.
  destruct (Z.eqb_spec (Z.of_nat (length (f :: rest))) 0) as [Hz | Hz];
    [cbn [length] in Hz; lia |].
  cbn [bind]. rewrite Hscan. cbn [bind].
  do 2 eexists. repeat split.
Qed.

(** ** Frame loop *)

Lemma analyze_phone_length (cfg : Config) (phones : list Device)
    (hands : list Hand) (shape : FrameShape) :
  length (analyze_phone_hand_interaction cfg phones hands shape) = length phones.
Proof.
  induction phones as [| p rest IH]; [reflexivity |].
  cbn [analyze_phone_hand_interaction length]. now rewrite IH.
Qed.

Lemma any_held_analyze_boxes (cfg : Config) (boxes : list Box)
    (hands : list Hand) (shape : FrameShape) :
  any_held (analyze_phone_hand_interaction cfg (map device_info boxes) hands shape)
  = existsb (box_near_hand cfg hands shape) boxes.
Proof.
  unfold any_held. induction boxes as [| b rest IH]; [reflexivity |].
  cbn [map analyze_phone_hand_interaction existsb]. now rewrite IH.
Qed.

Lemma float_eq_false (x y : R) : x <> y -> float_eq x y = false.
Proof.
  intro H. unfold float_eq. destruct (Req_dec_T x y); [contradiction | reflexivity].
Qed.

Lemma process_frame_started (cfg : Config) (self : Analyzer)
    (phones taps : list Device) (hands : list Hand) (shape : FrameShape)
    (idx : Z) (fps t : R) :
  timer_started self ->
  exists self',
    process_frame cfg self phones taps hands shape idx fps t
    = Ok (self',
          (analyze_phone_hand_interaction cfg phones hands shape,
           analyze_tap_to_pay_hand_interaction cfg taps hands shape,
           hands))
    /\ timer_started self'
    /\ is_phone_being_held self'
       = any_held (analyze_phone_hand_interaction cfg phones hands shape)
    /\ active_usage_history self'
       = trim_history cfg
           (active_usage_history self
            ++ [any_held (analyze_phone_hand_interaction cfg phones hands shape)])
    /\ phone_positions self'
       = trim_history cfg (phone_positions self ++ [primary_position phones]).
Proof.
  intro Hok. unfold process_frame.
  set (classified_phones := analyze_phone_hand_interaction cfg phones hands shape).
  destruct (update_phone_timer_started self classified_phones fps t Hok)
    as (self1 & Hstep & Hok1 & Hheld & Hpos & Hhist).
  rewrite Hstep. cbn [bind].
  set (self2 := update_tracking cfg self1 classified_phones idx).
  assert (Hfilter : apply_temporal_filtering cfg self2 classified_phones
                    = Ok classified_phones).
  { destruct (filter_returns cfg self2 classified_phones) as [H | [Hnone H]];
      [exact H |].
    rewrite H, clear_flags_classified;
      [reflexivity | apply analyze_phone_classified | exact Hnone]. }
  rewrite Hfilter. cbn [bind].
  exists self2. split; [reflexivity |].
  subst self2. cbn [update_tracking is_phone_being_held active_usage_history
                    phone_positions phone_hold_start_time].
  rewrite Hpos, Hhist. repeat split; try assumption.
  f_equal. f_equal. subst classified_phones.
  destruct phones; reflexivity.
Qed.

(** One frame through the whole analyzer, from any state in which a hold in
    progress has its start recorded: the call returns the classifier's
    verdicts unchanged by the filter, the timer's held flag is the frame's
    activity, and that activity and the first phone's center are appended to
    the bounded histories. *)
Theorem process_frame_pipeline (cfg : Config) (self : Analyzer)
    (phones taps : list Device) (hands : list Hand) (shape : FrameShape)
    (idx : Z) (fps t : R) :
  timer_started self ->
  exists self',
    process_frame cfg self phones taps hands shape idx fps t
    = Ok (self',
          (analyze_phone_hand_interaction cfg phones hands shape,
           analyze_tap_to_pay_hand_interaction cfg taps hands shape,
           hands))
    /\ timer_started self'
    /\ is_phone_being_held self'
       = any_held (analyze_phone_hand_interaction cfg phones hands shape)
    /\ active_usage_history self'
       = trim_history cfg
           (active_usage_history self
            ++ [any_held (analyze_phone_hand_interaction cfg phones hands shape)])
    /\ phone_positions self'
       = trim_history cfg (phone_positions self ++ [primary_position phones]).
Proof.
  apply process_frame_started.
Qed.

Lemma process_frame_pipeline_witness :
  exists self',
    process_frame default_config init_analyzer [sample_phone] [] [sample_hand]
      (200, 200)%Z 0 30 1
    = Ok (self',
          (analyze_phone_hand_interaction default_config [sample_phone]
             [sample_hand] (200, 200)%Z,
           analyze_tap_to_pay_hand_interaction default_config []
             [sample_hand] (200, 200)%Z,
           [sample_hand]))
    /\ timer_started self'
    /\ is_phone_being_held self'
       = any_held (analyze_phone_hand_interaction default_config [sample_phone]
                     [sample_hand] (200, 200)%Z)
    /\ active_usage_history self'
       = trim_history default_config
           (active_usage_history init_analyzer
            ++ [any_held (analyze_phone_hand_interaction default_config
                            [sample_phone] [sample_hand] (200, 200)%Z)])
    /\ phone_positions self'
       = trim_history default_config
           (phone_positions init_analyzer ++ [primary_position [sample_phone]]).
Proof.
  apply (process_frame_pipeline default_config init_analyzer [sample_phone] []
           [sample_hand] (200, 200)%Z 0 30 1).
  intro H. discriminate H.
Defined.

Lemma progress_update_returns (frame_idx : Z) (start_time now : R) :
  now <> start_time -> progress_update frame_idx start_time now = Ok tt.
Proof.
  intro Hne. unfold progress_update, py_truediv_by_float.
  destruct (frame_idx mod 100 =? 0)%Z; [| reflexivity].
  rewrite float_eq_false by lra. reflexivity.
Qed.

Lemma process_frames_direct (cfg : Config) (fps start_time : R)
    (frames : list FrameInput) :
  fps <> 0 ->
  Forall (fun frame => in_progress_clock frame <> start_time) frames ->
  forall (self : VideoProcessor) (idx : Z),
    timer_started (analyzer self) ->
    exists self',
      process_frames cfg fps start_time self idx frames = Ok self'
      /\ usage_data self' = usage_data self ++ direct_records cfg fps idx frames
      /\ timer_started (analyzer self').
Proof.
  intros Hfps Hprogress.
  induction frames as [| frame rest IH]; intros self idx Hok.
  - exists self. cbn. rewrite app_nil_r. now repeat split.
  - inversion Hprogress as [| fr l Hclock Hrest]; subst.
    cbn [process_frames]. rewrite detect_devices_filter.
    destruct (process_frame_started cfg (analyzer self)
                (map device_info
                   (filter (fun b => (box_cls b =? CLASS_PHONE)%Z)
                      (all_boxes (in_results frame))))
                (map device_info
                   (filter (fun b => (box_cls b =? CLASS_TAP_TO_PAY)%Z)
                      (all_boxes (in_results frame))))
                (in_hands frame) (in_shape frame) idx fps (in_clock frame) Hok)
      as (an' & Hframe & Hok' & _).
    rewrite Hframe. cbn [bind].
    unfold frame_record, py_truediv_by_float.
    rewrite float_eq_false by exact Hfps. cbn [bind].
    rewrite progress_update_returns by exact Hclock. cbn [bind].
    match goal with
    | |- exists _, process_frames _ _ _ ?vp _ _ = _ /\ _ =>
        destruct (IH Hrest vp (idx + 1)%Z Hok') as (self' & Hrun & Hdata & Hfinal)
    end.
    exists self'. split; [exact Hrun |]. split; [| exact Hfinal].
    rewrite Hdata. cbn [usage_data direct_records]. rewrite <- app_assoc.
    cbn [app]. unfold direct_record.
    change analyze_tap_to_pay_hand_interaction with analyze_phone_hand_interaction.
    rewrite !analyze_phone_length, !length_map, !any_held_analyze_boxes.
    reflexivity.
Qed.

(** The frame loop with a frame rate other than zero, and a progress clock
    that has moved on from the loop's start time, never fails, whatever the
    detectors return and whatever the timer's clock does.  It appends one
    record per frame: frame [i] of the run gets index [idx + i] and timestamp
    [(idx + i) / fps]; its device counts are the numbers of boxes of class 1
    and of class 0; and it is active exactly when some box of class 1 has a
    hand within the threshold of its center. *)
Theorem process_frames_records (cfg : Config) (fps start_time : R)
    (frames : list FrameInput) (self : VideoProcessor) (idx : Z) :
  fps <> 0 ->
  Forall (fun frame => in_progress_clock frame <> start_time) frames ->
  timer_started (analyzer self) ->
  exists self',
    process_frames cfg fps start_time self idx frames = Ok self'
    /\ usage_data self' = usage_data self ++ direct_records cfg fps idx frames
    /\ timer_started (analyzer self').
Proof.
  intros Hfps Hprogress Hok. now apply process_frames_direct.
Qed.

Lemma process_frames_records_witness :
  exists self',
    process_frames default_config 30 0
      {| analyzer := init_analyzer; usage_data := [] |} 0 [sample_frame 1]
    = Ok self'
    /\ usage_data self'
       = usage_data {| analyzer := init_analyzer; usage_data := [] |}
         ++ direct_records default_config 30 0 [sample_frame 1]
    /\ timer_started (analyzer self').
Proof.
  apply (process_frames_records default_config 30 0 [sample_frame 1]
           {| analyzer := init_analyzer; usage_data := [] |} 0).
  - lra.
  - repeat constructor. cbn. lra.
  - intro H. discriminate H.
Defined.

(** With a frame rate of zero the loop fails on its first frame: the
    timestamp [frame_idx / fps] divides by zero. *)
Theorem process_frames_zero_fps_raises (cfg : Config) (start_time : R)
    (self : VideoProcessor) (idx : Z) (frame : FrameInput)
    (rest : list FrameInput) :
  timer_started (analyzer self) ->
  process_frames cfg 0 start_time self idx (frame :: rest)
  = Raise ZeroDivisionError.
Proof.
  intro Hok. cbn [process_frames]. rewrite detect_devices_filter.
  destruct (process_frame_started cfg (analyzer self)
              (map device_info
                 (filter (fun b => (box_cls b =? CLASS_PHONE)%Z)
                    (all_boxes (in_results frame))))
              (map device_info
                 (filter (fun b => (box_cls b =? CLASS_TAP_TO_PAY)%Z)
                    (all_boxes (in_results frame))))
              (in_hands frame) (in_shape frame) idx 0 (in_clock frame) Hok)
    as (an' & Hframe & _).
  rewrite Hframe. cbn [bind].
  unfold frame_record, py_truediv_by_float, float_eq.
  destruct (Req_dec_T 0 0) as [_ | Hne]; [reflexivity | contradiction].
Qed.

Lemma process_frames_zero_fps_raises_witness :
  process_frames default_config 0 0
    {| analyzer := init_analyzer; usage_data := [] |} 0 [sample_frame 1]
  = Raise ZeroDivisionError.
Proof.
  apply (process_frames_zero_fps_raises default_config 0
           {| analyzer := init_analyzer; usage_data := [] |} 0
           (sample_frame 1) []).
  intro H. discriminate H.
Defined.

(** The progress update divides the frame count by the time elapsed since
    the loop started: when the count after a frame is a multiple of 100 and
    the clock still reads the start time, the loop fails there, after the
    frame itself has been processed and recorded. *)
Theorem process_frames_stalled_clock_raises (cfg : Config) (fps start_time : R)
    (self : VideoProcessor) (idx : Z) (frame : FrameInput)
    (rest : list FrameInput) :
  fps <> 0 ->
  timer_started (analyzer self) ->
  ((idx + 1) mod 100 = 0)%Z ->
  in_progress_clock frame = start_time ->
  process_frames cfg fps start_time self idx (frame :: rest)
  = Raise ZeroDivisionError.
Proof.
  intros Hfps Hok Hmod Hclock. cbn [process_frames].
  rewrite detect_devices_filter.
  destruct (process_frame_started cfg (analyzer self)
              (map device_info
                 (filter (fun b => (box_cls b =? CLASS_PHONE)%Z)
                    (all_boxes (in_results frame))))
              (map device_info
                 (filter (fun b => (box_cls b =? CLASS_TAP_TO_PAY)%Z)
                    (all_boxes (in_results frame))))
              (in_hands frame) (in_shape frame) idx fps (in_clock frame) Hok)
    as (an' & Hframe & _).
  rewrite Hframe. cbn [bind].
  unfold frame_record, py_truediv_by_float at 1.
  rewrite float_eq_false by exact Hfps. cbn [bind].
  unfold progress_update, py_truediv_by_float, float_eq.
  rewrite Hmod, Hclock. cbn [Z.eqb].
  destruct (Req_dec_T (start_time - start_time) 0) as [_ | Hne];
    [reflexivity | exfalso; apply Hne; lra].
Qed.

Lemma process_frames_stalled_clock_raises_witness :
  process_frames default_config 30 1
    {| analyzer := init_analyzer; usage_data := [] |} 99 [sample_frame 1]
  = Raise ZeroDivisionError.
Proof.
  apply (process_frames_stalled_clock_raises default_config 30 1
           {| analyzer := init_analyzer; usage_data := [] |} 99
           (sample_frame 1) []).
  - lra.
  - intro H. discriminate H.
  - reflexivity.
  - reflexivity.
Defined.

(** ** From the frame loop to the summary *)

Lemma direct_records_length (cfg : Config) (fps : R) (frames : list FrameInput) :
  forall idx, length (direct_records cfg fps idx frames) = length frames.
Proof.
  induction frames as [| fr rest IH]; intro idx; [reflexivity |].
  cbn [direct_records length]. now rewrite IH.
Qed.

Lemma direct_records_nondecreasing (cfg : Config) (fps : R)
    (frames : list FrameInput) :
  0 < fps ->
  forall idx, nondecreasing (map timestamp (direct_records cfg fps idx frames)).
Proof.
  intro Hfps. induction frames as [| fr rest IH]; intro idx; [exact I |].
  specialize (IH (idx + 1)%Z).
  destruct rest as [| fr' rest']; [exact I |].
  cbn [direct_records map] in IH |- *. split; [| exact IH].
  cbn [timestamp direct_record].
  apply Rmult_le_compat_r; [left; now apply Rinv_0_lt_compat |].
  apply IZR_le. lia.
Qed.

Lemma direct_records_last_timestamp (cfg : Config) (fps : R)
    (rest : list FrameInput) :
  forall (idx : Z) (fr : FrameInput),
    timestamp (last (direct_records cfg fps (idx + 1) rest)
                 (direct_record cfg fps idx fr))
    = IZR (idx + Z.of_nat (length rest)) / fps.
Proof.
  induction rest as [| fr' rest IH]; intros idx fr.
  - cbn. now rewrite Z.add_0_r.
  - cbn [direct_records]. rewrite last_cons_shift, IH.
    do 2 f_equal. cbn [length]. lia.
Qed.

Lemma get_usage_summary_counts (an : Analyzer) (data : list FrameData)
    (summary : Summary) :
  get_usage_summary {| analyzer := an; usage_data := data |} = Ok (Some summary) ->
  summary_total_frames summary = Z.of_nat (length data)
  /\ summary_active_frames summary
     = Z.of_nat (length (filter active_phone_usage data))
  /\ summary_total_phone_hold_time summary = get_total_phone_hold_duration an.
Proof.
  unfold get_usage_summary. cbn [usage_data analyzer].
  destruct data as [| f rest]; [discriminate |].
  destruct (py_truediv _ _) as [ratio | e]; [| discriminate].
  cbn [bind].
  destruct (find_usage_sessions (f :: rest)) as [sessions | e]; [| discriminate].
  cbn [bind]. intro H. injection H as <-. now repeat split.
Qed.

(** A whole video, from the initial state, at a positive frame rate and with
    a progress clock that has moved on from the start time: the loop returns
    and the summary exists; it counts every frame; its sessions are in time
    order from time 0 without overlap; and the total usage time is between
    zero and the time from the first frame to the last, which is the number
    of frames less one, divided by the frame rate. *)
Theorem video_summary_well_formed (cfg : Config) (fps start_time : R)
    (frame : FrameInput) (rest : list FrameInput) :
  0 < fps ->
  Forall (fun fr => in_progress_clock fr <> start_time) (frame :: rest) ->
  exists processed summary,
    process_frames cfg fps start_time
      {| analyzer := init_analyzer; usage_data := [] |} 0 (frame :: rest)
      = Ok processed
    /\ get_usage_summary processed = Ok (Some summary)
    /\ summary_total_frames summary = Z.of_nat (length (frame :: rest))
    /\ chronological 0 (usage_sessions summary)
    /\ 0 <= total_usage_time summary <= INR (length rest) / fps.
Proof.
  intros Hfps Hprogress.
  destruct (process_frames_direct cfg fps start_time (frame :: rest)
              ltac:(lra) Hprogress
              {| analyzer := init_analyzer; usage_data := [] |} 0
              ltac:(intro H; discriminate H))
    as (processed & Hrun & Hdata & _).
  cbn [usage_data app direct_records] in Hdata.
  destruct processed as [an data]. cbn [usage_data] in Hdata. subst data.
  pose proof (direct_records_nondecreasing cfg fps (frame :: rest) Hfps 0) as Hnd.
  cbn [direct_records] in Hnd.
  destruct (sessions_in_time_order an _ _ Hnd) as (summary & Hsum & Hchrono & Htotal).
  destruct (get_usage_summary_counts an _ summary Hsum) as (Hcount & _).
  exists {| analyzer := an;
            usage_data := direct_record cfg fps 0 frame
                          :: direct_records cfg fps (0 + 1) rest |}, summary.
  split; [exact Hrun |]. split; [exact Hsum |].
  split; [| split].
  - rewrite Hcount. cbn [length]. now rewrite direct_records_length.
  - cbn [timestamp direct_record] in Hchrono.
    replace (IZR 0 / fps) with 0 in Hchrono by (field; lra). exact Hchrono.
  - rewrite direct_records_last_timestamp in Htotal.
    cbn [timestamp direct_record] in Htotal.
    replace (IZR (0 + Z.of_nat (length rest)) / fps - IZR 0 / fps)
      with (INR (length rest) / fps) in Htotal.
    + exact Htotal.
    + rewrite Z.add_0_l, <- INR_IZR_INZ. field. lra.
Qed.

Lemma video_summary_well_formed_witness :
  exists processed summary,
    process_frames default_config 30 0
      {| analyzer := init_analyzer; usage_data := [] |} 0
      (sample_frame 1 :: [sample_frame 2])
      = Ok processed
    /\ get_usage_summary processed = Ok (Some summary)
    /\ summary_total_frames summary
       = Z.of_nat (length (sample_frame 1 :: [sample_frame 2]))
    /\ chronological 0 (usage_sessions summary)
    /\ 0 <= total_usage_time summary <= INR (length [sample_frame 2]) / 30.
Proof.
  apply (video_summary_well_formed default_config 30 0
           (sample_frame 1) [sample_frame 2]).
  - lra.
  - repeat constructor; cbn; lra.
Defined.
